(** * URL reputation scanner: a shallow embedding of [server.js]

    The server accepts [POST /api/scan { urls: [...] }], queries two
    reputation services (Cisco Talos and FortiGuard) for every URL and
    combines their answers into one verdict per URL.

    Layout of this development:
    - [Js]: the fragment of JavaScript values and built-ins the server uses;
    - [Classifier]: [classifyFromEngines] (server.js, lines 90-145);
    - [Clients]: [queryTalos] and [queryFortiGuard] (lines 16-86);
    - [Route]: the [/api/scan] handler (lines 149-188);
    - the properties of each part. *)

From Stdlib Require Import String Ascii List ZArith Bool Lia.
From Stdlib Require Import SpecFloat.
Import ListNotations.
Local Open Scope string_scope.
Set Warnings "-register-all,-notation-for-abbreviation".

(* ================================================================== *)
(** * JavaScript values and built-ins *)
(* ================================================================== *)

Module Js.

(** Values that [JSON.parse] can produce, plus [undefined] (the value of
    a missing property).  Numbers are IEEE-754 values; a parsed object
    is an association list, looked up by its first binding of a key. *)
Inductive JsVal : Type :=
| JUndefined
| JNull
| JBool (b : bool)
| JNum (n : spec_float)
| JStr (s : string)
| JArr (items : list JsVal)
| JObj (fields : list (string * JsVal)).

(** Exceptions and promise rejections. *)
Inductive JsError : Type :=
| TypeError
| SyntaxError
| FetchError
| OtherError (tag : string).

(** Outcome of an expression that may throw. *)
Inductive Result (A : Type) : Type :=
| Ok (a : A)
| Throw (e : JsError).
Arguments Ok {A} a.
Arguments Throw {A} e.

Definition bindR {A B} (c : Result A) (k : A -> Result B) : Result B :=
  match c with
  | Ok a => k a
  | Throw e => Throw e
  end.

Declare Scope result_scope.
Delimit Scope result_scope with res.
Notation "x <- c ;; k" := (bindR c (fun x => k))
  (at level 61, c at next level, right associativity) : result_scope.

(** The two built-ins whose definition lies in the JavaScript engine
    (Unicode case mapping, shortest round-trip printing of doubles). *)
Class JsRuntime : Type := {
  String_toLowerCase : string -> string;
  Number_toString : spec_float -> string
}.

(** ToBoolean. *)
Definition truthy (v : JsVal) : bool :=
  match v with
  | JUndefined | JNull => false
  | JBool b => b
  | JNum (S754_zero _) | JNum S754_nan => false
  | JNum _ => true
  | JStr s => negb (s =? "")
  | JArr _ | JObj _ => true
  end.

(** [a || b]. *)
Definition jsOr (a b : JsVal) : JsVal := if truthy a then a else b.

(** Own-property lookup in a parsed object. *)
Fixpoint lookup (fields : list (string * JsVal)) (key : string) : option JsVal :=
  match fields with
  | [] => None
  | (k, v) :: rest => if k =? key then Some v else lookup rest key
  end.

(** [v.key] for a key that no prototype defines: a [TypeError] on
    [null] and [undefined], the own property of an object, and
    [undefined] everywhere else. *)
Definition getProp (v : JsVal) (key : string) : Result JsVal :=
  match v with
  | JUndefined | JNull => Throw TypeError
  | JObj fields =>
      match lookup fields key with
      | Some x => Ok x
      | None => Ok JUndefined
      end
  | _ => Ok JUndefined
  end.

(** [typeof v === "number"]. *)
Definition isNumber (v : JsVal) : bool :=
  match v with JNum _ => true | _ => false end.

(** [v < 0] for a value already known to be a number. *)
Definition ltZero (v : JsVal) : bool :=
  match v with
  | JNum n => SFltb n (S754_zero false)
  | _ => false
  end.

(** [Array.isArray(v)]. *)
Definition isArray (v : JsVal) : bool :=
  match v with JArr _ => true | _ => false end.

(** [String.prototype.includes]. *)
Fixpoint startsWith (s p : string) : bool :=
  match p, s with
  | EmptyString, _ => true
  | String c p', String d s' => Ascii.eqb c d && startsWith s' p'
  | String _ _, EmptyString => false
  end.

Fixpoint includes (s sub : string) : bool :=
  startsWith s sub ||
  match s with
  | EmptyString => false
  | String _ s' => includes s' sub
  end.

(** [Array.prototype.join]. *)
Definition join (sep : string) (parts : list string) : string :=
  String.concat sep parts.

Section WithRuntime.
Context {rt : JsRuntime}.

(** [String(v)].  A parsed object prints as ["[object Object]"], unless
    it has an own property named [toString]: that property is not
    callable and the inherited [valueOf] returns the object itself, so
    the conversion throws.  An array joins its elements with a comma,
    [null] and [undefined] elements printing as the empty string. *)
Fixpoint toStr (v : JsVal) : Result string :=
  match v with
  | JUndefined => Ok "undefined"
  | JNull => Ok "null"
  | JBool true => Ok "true"
  | JBool false => Ok "false"
  | JNum n => Ok (Number_toString n)
  | JStr s => Ok s
  | JArr items =>
      let fix elems (l : list JsVal) : Result (list string) :=
        match l with
        | [] => Ok []
        | x :: rest =>
            bindR (match x with
                   | JUndefined | JNull => Ok ""
                   | _ => toStr x
                   end)
                  (fun s => bindR (elems rest) (fun ss => Ok (s :: ss)))
        end in
      bindR (elems items) (fun ss => Ok (join "," ss))
  | JObj fields =>
      match lookup fields "toString" with
      | Some _ => Throw TypeError
      | None => Ok "[object Object]"
      end
  end.

(** [v.toLowerCase()]: only strings have the method. *)
Definition toLowerCase (v : JsVal) : Result string :=
  match v with
  | JStr s => Ok (String_toLowerCase s)
  | _ => Throw TypeError
  end.

End WithRuntime.

(** The engine's built-ins restricted to ASCII text, for running the
    model on concrete inputs: letters [A]-[Z] are mapped to [a]-[z]. *)
Definition lowerAscii (c : ascii) : ascii :=
  let n := nat_of_ascii c in
  if (65 <=? n)%nat && (n <=? 90)%nat then ascii_of_nat (n + 32) else c.

Fixpoint lowerString (s : string) : string :=
  match s with
  | EmptyString => EmptyString
  | String c s' => String (lowerAscii c) (lowerString s')
  end.

(** Printing of the numbers used in the examples below; every other
    number is printed as ["?"], which no example relies on. *)
Definition printSmall (n : spec_float) : string :=
  match n with
  | S754_zero _ => "0"
  | S754_nan => "NaN"
  | S754_infinity false => "Infinity"
  | S754_infinity true => "-Infinity"
  | S754_finite false 1 0 => "1"
  | S754_finite true 1 0 => "-1"
  | S754_finite _ _ _ => "?"
  end.

Definition asciiRuntime : JsRuntime :=
  {| String_toLowerCase := lowerString; Number_toString := printSmall |}.

End Js.
Import Js.

(* ================================================================== *)
(** * Policy logic: [classifyFromEngines] *)
(* ================================================================== *)

Module Classifier.

(** What [queryTalos] returns when it has data. *)
Record TalosFragment : Type := mkTalos {
  talos_category : JsVal;
  talos_score : JsVal;
  talos_raw : JsVal
}.

(** What [queryFortiGuard] returns when it has data. *)
Record FortiFragment : Type := mkForti {
  forti_category : JsVal;
  forti_threat : JsVal;
  forti_raw : JsVal
}.

(** The object [{ status, label, reason }]. *)
Record Verdict : Type := mkVerdict {
  status : string;
  label : string;
  reason : string
}.

(** [frag && frag.field], with [None] for [null]. *)
Definition andField {F : Type} (frag : option F) (field : F -> JsVal) : JsVal :=
  match frag with
  | None => JNull
  | Some f => field f
  end.

Definition blockedSignals : list string :=
  [ "adult"; "porn"; "sex"; "nsfw"; "gore"; "violence";
    "malware"; "phishing"; "botnet"; "spam"; "hacking" ].

Definition reviewSignals : list string :=
  [ "games"; "game"; "social"; "social networking"; "chat";
    "streaming"; "video"; "entertainment"; "proxy"; "vpn" ].

Definition goodSignals : list string :=
  [ "education"; "educational"; "reference"; "academic";
    "business"; "productivity"; "search engines" ].

(** [signals.some(s => catString.includes(s))]. *)
Definition someIncluded (signals : list string) (catString : string) : bool :=
  existsb (fun s => includes catString s) signals.

Definition hasBlocked : string -> bool := someIncluded blockedSignals.
Definition hasReview : string -> bool := someIncluded reviewSignals.
Definition hasGood : string -> bool := someIncluded goodSignals.

Definition unknownVerdict : Verdict :=
  mkVerdict "unknown" "Unsure"
    "No strong policy signals from Talos/FortiGuard categories.".

Definition blockedVerdict : Verdict :=
  mkVerdict "blocked" "Blocked"
    "Talos/FortiGuard category indicates adult, gore, malware, or similar high‑risk content.".

Definition reviewVerdict : Verdict :=
  mkVerdict "review" "Needs review"
    "Talos/FortiGuard category indicates games, social, streaming, or proxy‑like content.".

Definition goodVerdict : Verdict :=
  mkVerdict "good" "Good"
    "Talos/FortiGuard category indicates educational, reference, or productivity content.".

Definition negativeScoreVerdict : Verdict :=
  mkVerdict "blocked" "Blocked"
    "Cisco Talos reputation score is negative (high risk).".

(** Lines 119-135: the [if / else if / else if] chain over the three
    flags, starting from the unknown default. *)
Definition keywordVerdict (catString : string) : Verdict :=
  if hasBlocked catString then blockedVerdict
  else if hasReview catString then reviewVerdict
  else if hasGood catString then goodVerdict
  else unknownVerdict.

(** Line 138: [talos && typeof talos.score === "number" && talos.score < 0]. *)
Definition scoreIsNegative (talos : option TalosFragment) : bool :=
  match talos with
  | None => false
  | Some t => isNumber (talos_score t) && ltZero (talos_score t)
  end.

(** Lines 137-142. *)
Definition scoreOverride (talos : option TalosFragment) (v : Verdict) : Verdict :=
  if scoreIsNegative talos then negativeScoreVerdict else v.

Section WithRuntime.
Context {rt : JsRuntime}.
Local Open Scope result_scope.

(** [if (v) categories.push(String(v).toLowerCase())]. *)
Definition pushLowered (v : JsVal) (categories : list string) : Result (list string) :=
  if truthy v then
    s <- toStr v ;;
    Ok (categories ++ [String_toLowerCase s])%list
  else Ok categories.

(** Lines 91-98 without [lowerUrl]: the three pushes and the join. *)
Definition catString (talos : option TalosFragment) (forti : option FortiFragment)
  : Result string :=
  c1 <- pushLowered (andField talos talos_category) [] ;;
  c2 <- pushLowered (andField forti forti_category) c1 ;;
  c3 <- pushLowered (andField forti forti_threat) c2 ;;
  Ok (join " | " c3).

Definition classifyFromEngines (url : JsVal)
    (talos : option TalosFragment) (forti : option FortiFragment) : Result Verdict :=
  lowerUrl <- toLowerCase url ;;
  cs <- catString talos forti ;;
  Ok (scoreOverride talos (keywordVerdict cs)).

End WithRuntime.

End Classifier.
Import Classifier.

(* ================================================================== *)
(** * Effects: requests handed to [fetch], and exceptions *)
(* ================================================================== *)

Module Effects.

(** The request [fetch(endpoint, { method, headers, body })] sends.
    [req_body] is the object given to [JSON.stringify]. *)
Record Request : Type := mkRequest {
  req_endpoint : string;
  req_method : string;
  req_headers : list (string * string);
  req_body : JsVal
}.

(** What the server reads from a response: [res.ok], [res.status] and
    the outcome of [res.json()]. *)
Record HttpResponse : Type := mkHttpResponse {
  res_ok : bool;
  res_status : Z;
  res_json : Result JsVal
}.

(** The world is the sequence of requests handed to [fetch] so far.
    Lines written with [console.error] are not part of it. *)
Definition World : Type := list Request.

(** The network: given the requests made before and the present one,
    [fetch] either rejects or resolves to a response.  The history lets
    one endpoint answer the same request differently over time. *)
Definition Network : Type := World -> Request -> Result HttpResponse.

(** Computations that read and extend the world and may throw. *)
Definition M (A : Type) : Type := World -> Result A * World.

Definition ret {A} (a : A) : M A := fun w => (Ok a, w).

Definition bindM {A B} (c : M A) (k : A -> M B) : M B :=
  fun w =>
    match c w with
    | (Ok a, w') => k a w'
    | (Throw e, w') => (Throw e, w')
    end.

(** A pure computation that may throw. *)
Definition liftR {A} (r : Result A) : M A := fun w => (r, w).

(** [try { c } catch (err) { h err }]. *)
Definition tryCatch {A} (c : M A) (h : JsError -> M A) : M A :=
  fun w =>
    match c w with
    | (Ok a, w') => (Ok a, w')
    | (Throw e, w') => h e w'
    end.

(** [await fetch(...)]: the request is recorded, the network answers. *)
Definition fetch (net : Network) (req : Request) : M HttpResponse :=
  fun w => (net w req, (w ++ [req])%list).

Declare Scope io_scope.
Delimit Scope io_scope with io.
Notation "x <- c ;; k" := (bindM c (fun x => k))
  (at level 61, c at next level, right associativity) : io_scope.

End Effects.
Import Effects.

(* ================================================================== *)
(** * Upstream clients: [queryTalos] and [queryFortiGuard] *)
(* ================================================================== *)

Module Clients.

(** The four variables read from [process.env]: each is unset or a
    string. *)
Record Env : Type := mkEnv {
  env_TALOS_API_URL : option string;
  env_TALOS_API_KEY : option string;
  env_FORTIGUARD_API_URL : option string;
  env_FORTIGUARD_API_KEY : option string
}.

(** [process.env.X || dflt]: an unset or empty variable is falsy. *)
Definition envOr (x : option string) (dflt : string) : string :=
  match x with
  | Some s => if s =? "" then dflt else s
  | None => dflt
  end.

Definition TALOS_API_URL (env : Env) : string :=
  envOr (env_TALOS_API_URL env) "https://<your-talos-endpoint>".
Definition TALOS_API_KEY (env : Env) : string :=
  envOr (env_TALOS_API_KEY env) "".
Definition FORTIGUARD_API_URL (env : Env) : string :=
  envOr (env_FORTIGUARD_API_URL env) "https://<your-fortiguard-endpoint>".
Definition FORTIGUARD_API_KEY (env : Env) : string :=
  envOr (env_FORTIGUARD_API_KEY env) "".

(** The [headers] object: the spread adds [Authorization] only for a
    non-empty key. *)
Definition headersFor (key : string) : list (string * string) :=
  ("Content-Type", "application/json") ::
  (if key =? "" then [] else [("Authorization", "Bearer " ++ key)]).

Definition postRequest (endpoint key : string) (url : JsVal) : Request :=
  mkRequest endpoint "POST" (headersFor key) (JObj [("url", url)]).

(** [data.k1 || data.k2 || null]. *)
Definition firstTruthy (data : JsVal) (k1 k2 : string) : Result JsVal :=
  bindR (getProp data k1) (fun a =>
  if truthy a then Ok a
  else bindR (getProp data k2) (fun b => Ok (jsOr b JNull))).

(** Lines 46-50: the object [queryTalos] returns for a parsed body. *)
Definition talosFragment (data : JsVal) : Result TalosFragment :=
  bindR (firstTruthy data "category" "threat_category") (fun category =>
  bindR (firstTruthy data "score" "reputation_score") (fun score =>
  Ok (mkTalos category score data))).

(** Lines 77-81: the object [queryFortiGuard] returns for a parsed body. *)
Definition fortiFragment (data : JsVal) : Result FortiFragment :=
  bindR (firstTruthy data "category" "webfilter_category") (fun category =>
  bindR (firstTruthy data "threat" "threat_level") (fun threat =>
  Ok (mkForti category threat data))).

Section WithEnvironment.
Variable env : Env.
Variable net : Network.
Local Open Scope io_scope.

Definition queryTalos (url : JsVal) : M (option TalosFragment) :=
  if TALOS_API_URL env =? "" then ret None
  else
    tryCatch
      (res <- fetch net (postRequest (TALOS_API_URL env) (TALOS_API_KEY env) url) ;;
       if negb (res_ok res) then ret None
       else
         data <- liftR (res_json res) ;;
         frag <- liftR (talosFragment data) ;;
         ret (Some frag))
      (fun err => ret None).

Definition queryFortiGuard (url : JsVal) : M (option FortiFragment) :=
  if FORTIGUARD_API_URL env =? "" then ret None
  else
    tryCatch
      (res <- fetch net (postRequest (FORTIGUARD_API_URL env) (FORTIGUARD_API_KEY env) url) ;;
       if negb (res_ok res) then ret None
       else
         data <- liftR (res_json res) ;;
         frag <- liftR (fortiFragment data) ;;
         ret (Some frag))
      (fun err => ret None).

End WithEnvironment.

End Clients.
Import Clients.

(* ================================================================== *)
(** * The route [POST /api/scan] *)
(* ================================================================== *)

Module Route.

(** One entry of [results]. *)
Record ScanResult : Type := mkScanResult {
  sr_url : JsVal;
  sr_status : string;
  sr_label : string;
  sr_reason : string;
  sr_talos : option TalosFragment;
  sr_fortiguard : option FortiFragment
}.

(** What the handler sends: the status code and the JSON object. *)
Record Reply : Type := mkReply {
  reply_code : Z;
  reply_error : option string;
  reply_results : list ScanResult
}.

(** The entry pushed by the [catch] block, lines 176-183. *)
Definition errorResult (url : JsVal) : ScanResult :=
  mkScanResult url "unknown" "Unsure" "Error querying Talos/FortiGuard." None None.

(** The entry pushed by the [try] block, lines 166-173. *)
Definition verdictResult (url : JsVal) (verdict : Verdict)
    (talos : option TalosFragment) (fortiguard : option FortiFragment) : ScanResult :=
  mkScanResult url (status verdict) (label verdict) (reason verdict) talos fortiguard.

Section WithClients.
Context {rt : JsRuntime}.
(** The handler is stated over any two clients, so that clients which
    throw are covered as well as the two of [Clients]. *)
Variable queryTalos : JsVal -> M (option TalosFragment).
Variable queryFortiGuard : JsVal -> M (option FortiFragment).
Local Open Scope io_scope.

(** [await Promise.all([queryTalos(url), queryFortiGuard(url)])]: both
    calls are started, Talos first, and the [await] throws when either
    promise rejects. *)
Definition bothClients (url : JsVal)
  : M (option TalosFragment * option FortiFragment) :=
  fun w =>
    let (t, w1) := queryTalos url w in
    let (f, w2) := queryFortiGuard url w1 in
    match t, f with
    | Ok talos, Ok fortiguard => (Ok (talos, fortiguard), w2)
    | Throw e, _ => (Throw e, w2)
    | Ok _, Throw e => (Throw e, w2)
    end.

(** The body of the [for] loop, lines 158-184; [results.push] is
    rendered as appending to the list carried along. *)
Definition scanUrl (url : JsVal) (results : list ScanResult) : M (list ScanResult) :=
  tryCatch
    (engines <- bothClients url ;;
     verdict <- liftR (classifyFromEngines url (fst engines) (snd engines)) ;;
     ret (results ++ [verdictResult url verdict (fst engines) (snd engines)])%list)
    (fun err => ret (results ++ [errorResult url])%list).

(** [for (const url of urls) { ... }]. *)
Fixpoint forEachUrl (urls : list JsVal) (results : list ScanResult)
  : M (list ScanResult) :=
  match urls with
  | [] => ret results
  | url :: rest =>
      results' <- scanUrl url results ;;
      forEachUrl rest results'
  end.

(** The handler, applied to [req.body]. *)
Definition apiScan (body : JsVal) : M Reply :=
  bodyUrls <- liftR (getProp body "urls") ;;
  let urls := match bodyUrls with JArr items => items | _ => [] end in
  if (length urls =? 0)%nat then
    ret (mkReply 400 (Some "No URLs provided.") [])
  else
    results <- forEachUrl urls [] ;;
    ret (mkReply 200 None results).

End WithClients.

(** The server as deployed: the handler over the two clients. *)
Definition server {rt : JsRuntime} (env : Env) (net : Network) (body : JsVal) : M Reply :=
  apiScan (Clients.queryTalos env net) (Clients.queryFortiGuard env net) body.

End Route.
Import Route.

(* ================================================================== *)
(** * The behaviour as described, and sample inputs *)
(* ================================================================== *)

Module Described.

(** ** Readings of the description, to compare with the code *)

(** A field is kept when it is neither [null] nor the empty string. *)
Definition notNullNorEmpty (v : JsVal) : bool :=
  match v with
  | JNull => false
  | JStr s => negb (s =? "")
  | _ => true
  end.

Section WithRuntime.
Context {rt : JsRuntime}.

(** [String(v).toLowerCase()] for every element of a list. *)
Fixpoint loweredAll (vs : list JsVal) : Result (list string) :=
  match vs with
  | [] => Ok []
  | v :: rest =>
      bindR (toStr v) (fun s =>
      bindR (loweredAll rest) (fun ss => Ok (String_toLowerCase s :: ss)))
  end.

(** The joined string as a description reads: take the three fields in
    order, keep those [keep] accepts, lowercase each, join with [sep]. *)
Definition joinedCategories (keep : JsVal -> bool) (sep : string)
    (talos : option TalosFragment) (forti : option FortiFragment) : Result string :=
  bindR (loweredAll (filter keep [ andField talos talos_category;
                                   andField forti forti_category;
                                   andField forti forti_threat ]))
        (fun parts => Ok (join sep parts)).

End WithRuntime.

(** The value of [data.key], [undefined] when there is none. *)
Definition propOf (data : JsVal) (key : string) : JsVal :=
  match getProp data key with
  | Ok v => v
  | Throw _ => JUndefined
  end.

Definition isNullish (v : JsVal) : bool :=
  match v with
  | JNull | JUndefined => true
  | _ => false
  end.

(** "First non-null candidate wins, else null". *)
Definition firstNonNull (a b : JsVal) : JsVal :=
  if negb (isNullish a) then a
  else if negb (isNullish b) then b
  else JNull.

(** "First truthy candidate wins, else null". *)
Definition firstTruthyOf (a b : JsVal) : JsVal :=
  if truthy a then a
  else if truthy b then b
  else JNull.

(** An error reason that names one service. *)
Definition errorNaming (service : string) : string :=
  "Error querying " ++ service ++ ".".

(** ** Sample inputs *)

Definition minusOne : JsVal := JNum (S754_finite true 1 0).
Definition plusOne : JsVal := JNum (S754_finite false 1 0).
Definition zero : JsVal := JNum (S754_zero false).

Definition exampleUrl : JsVal := JStr "http://example.com".

(** A Talos fragment with a review category and a negative score. *)
Definition gamesNegative : TalosFragment := mkTalos (JStr "games") minusOne JNull.

(** Two categories that only spell a good signal when joined by a space. *)
Definition searchTalos : TalosFragment := mkTalos (JStr "Search") JNull JNull.
Definition enginesForti : FortiFragment := mkForti (JStr "Engines") JNull JNull.

(** A body whose primary score is zero and whose fallback is negative. *)
Definition zeroThenNegative : JsVal :=
  JObj [ ("category", JStr ""); ("threat_category", JStr "malware");
         ("score", zero); ("reputation_score", minusOne) ].

(** No variable of the environment is set. *)
Definition emptyEnv : Env := mkEnv None None None None.

(** A network on which every request succeeds with the same body. *)
Definition alwaysAnswers (data : JsVal) : Network :=
  fun _ _ => Ok (mkHttpResponse true 200 (Ok data)).

(** A network on which every request is rejected. *)
Definition unreachable : Network := fun _ _ => Throw FetchError.

(** Clients for exercising the handler: one that throws, one without
    data, one that always reports the same category. *)
Definition throwingTalos : JsVal -> M (option TalosFragment) :=
  fun _ w => (Throw (OtherError "talos"), w).
Definition throwingForti : JsVal -> M (option FortiFragment) :=
  fun _ w => (Throw (OtherError "fortiguard"), w).
Definition silentTalos : JsVal -> M (option TalosFragment) :=
  fun _ => ret None.
Definition silentForti : JsVal -> M (option FortiFragment) :=
  fun _ => ret None.

(** Talos throws for the URL ["b"] only and reports malware otherwise. *)
Definition talosFailingOnB : JsVal -> M (option TalosFragment) :=
  fun url w =>
    match url with
    | JStr "b" => (Throw (OtherError "talos"), w)
    | _ => (Ok (Some (mkTalos (JStr "Malware") JNull JNull)), w)
    end.

Definition bodyOf (urls : list JsVal) : JsVal := JObj [("urls", JArr urls)].

(** ** Shapes used to state properties *)

(** A keyword that cannot sit across the separator [" | "]: it holds no
    bar and does not end with a space... *)
Fixpoint tailClean (k : string) : bool :=
  match k with
  | EmptyString => true
  | String d k' =>
      negb (Ascii.eqb d "|") &&
      match k' with
      | EmptyString => negb (Ascii.eqb d " ")
      | String _ _ => true
      end &&
      tailClean k'
  end.

(** ... and it is not empty and does not start with a space. *)
Definition cleanKeyword (k : string) : bool :=
  match k with
  | EmptyString => false
  | String d _ => negb (Ascii.eqb d " ") && tailClean k
  end.

(** The three fields the classifier reads, in the order it reads them. *)
Definition categoryFields (talos : option TalosFragment)
    (forti : option FortiFragment) : list JsVal :=
  [ andField talos talos_category;
    andField forti forti_category;
    andField forti forti_threat ].

(** A value with no array and no object in it. *)
Definition isScalar (v : JsVal) : bool :=
  match v with
  | JArr _ | JObj _ => false
  | _ => true
  end.

(** The five verdicts the classifier can build. *)
Definition allVerdicts : list Verdict :=
  [ unknownVerdict; blockedVerdict; reviewVerdict; goodVerdict;
    negativeScoreVerdict ].

(** The status and label pairs an entry of the reply can carry. *)
Definition statusLabels : list (string * string) :=
  [ ("unknown", "Unsure"); ("blocked", "Blocked");
    ("review", "Needs review"); ("good", "Good") ].

(** The two requests the deployed server sends for one URL. *)
Definition requestsFor (env : Env) (url : JsVal) : list Request :=
  [ postRequest (TALOS_API_URL env) (TALOS_API_KEY env) url;
    postRequest (FORTIGUARD_API_URL env) (FORTIGUARD_API_KEY env) url ].

(** A request that gets no usable answer: [fetch] rejects, or the
    status is not a success. *)
Definition noAnswer (r : Result HttpResponse) : bool :=
  match r with
  | Throw _ => true
  | Ok res => negb (res_ok res)
  end.

(** An environment with both endpoints and both keys set. *)
Definition configuredEnv : Env :=
  mkEnv (Some "https://talos.example/api") (Some "tk")
        (Some "https://forti.example/api") (Some "fk").

End Described.
Import Described.

(* ================================================================== *)
(** * Properties of the classifier *)
(* ================================================================== *)

Module ClassifierFacts.

Section Generic.
Context {rt : JsRuntime}.

(** A string URL never makes the classifier throw by itself: what is
    left is the keyword step followed by the score override. *)
Lemma classify_string_url (u : string) talos forti :
  classifyFromEngines (JStr u) talos forti =
  bindR (catString talos forti)
        (fun cs => Ok (scoreOverride talos (keywordVerdict cs))).
Proof. reflexivity. Qed.

Lemma classify_of_catString (u : string) talos forti cs :
  catString talos forti = Ok cs ->
  classifyFromEngines (JStr u) talos forti =
  Ok (scoreOverride talos (keywordVerdict cs)).
Proof.
  intros Hcs. rewrite classify_string_url, Hcs. reflexivity.
Qed.

(** Any other URL value throws before anything else is looked at. *)
Lemma classify_non_string_url url talos forti :
  (forall u, url <> JStr u) ->
  classifyFromEngines url talos forti = Throw TypeError.
Proof.
  intros Hurl. destruct url; try reflexivity.
  exfalso. eapply Hurl. reflexivity.
Qed.

Lemma scoreOverride_silent talos v :
  scoreIsNegative talos = false -> scoreOverride talos v = v.
Proof. unfold scoreOverride. intros ->. reflexivity. Qed.

Lemma scoreOverride_fires talos v :
  scoreIsNegative talos = true -> scoreOverride talos v = negativeScoreVerdict.
Proof. unfold scoreOverride. intros ->. reflexivity. Qed.

(** The keyword step, branch by branch. *)
Lemma keywordVerdict_blocked cs :
  hasBlocked cs = true -> keywordVerdict cs = blockedVerdict.
Proof. unfold keywordVerdict. intros ->. reflexivity. Qed.

Lemma keywordVerdict_review cs :
  hasBlocked cs = false -> hasReview cs = true ->
  keywordVerdict cs = reviewVerdict.
Proof. unfold keywordVerdict. intros -> ->. reflexivity. Qed.

Lemma keywordVerdict_good cs :
  hasBlocked cs = false -> hasReview cs = false -> hasGood cs = true ->
  keywordVerdict cs = goodVerdict.
Proof. unfold keywordVerdict. intros -> -> ->. reflexivity. Qed.

Lemma keywordVerdict_unknown cs :
  hasBlocked cs = false -> hasReview cs = false -> hasGood cs = false ->
  keywordVerdict cs = unknownVerdict.
Proof. unfold keywordVerdict. intros -> -> ->. reflexivity. Qed.

(** The conversion [String(v)] is defined on every value that holds no
    object with an own [toString] property; strings, numbers, booleans
    and [null] in particular. *)
Lemma toStr_scalar v :
  match v with JArr _ | JObj _ => False | _ => True end ->
  exists s, toStr v = Ok s.
Proof.
  destruct v as [| |[|]|n|s|items|fields]; intros Hv; try contradiction;
    eexists; reflexivity.
Qed.

Lemma pushLowered_scalar v categories :
  match v with JArr _ | JObj _ => False | _ => True end ->
  exists cs, pushLowered v categories = Ok cs.
Proof.
  intros Hv. unfold pushLowered. destruct (truthy v).
  - destruct (toStr_scalar v Hv) as [s ->]. eexists. reflexivity.
  - eexists. reflexivity.
Qed.

(** So the joined string exists whenever the three category fields are
    scalars, which is what the services are expected to send. *)
Lemma catString_scalar talos forti :
  match andField talos talos_category with JArr _ | JObj _ => False | _ => True end ->
  match andField forti forti_category with JArr _ | JObj _ => False | _ => True end ->
  match andField forti forti_threat with JArr _ | JObj _ => False | _ => True end ->
  exists cs, catString talos forti = Ok cs.
Proof.
  intros H1 H2 H3. unfold catString.
  destruct (pushLowered_scalar _ [] H1) as [c1 ->]. cbn [bindR].
  destruct (pushLowered_scalar _ c1 H2) as [c2 ->]. cbn [bindR].
  destruct (pushLowered_scalar _ c2 H3) as [c3 ->]. cbn [bindR].
  eexists. reflexivity.
Qed.

End Generic.

End ClassifierFacts.
Import ClassifierFacts.

(* ================================================================== *)
(** * The classifier against its description *)
(* ================================================================== *)

Module ClassifierSpec.

(** Comparisons with zero: a number above zero is not below it, and
    neither zero is. *)
Lemma positive_not_negative n :
  SFltb (S754_zero false) n = true -> SFltb n (S754_zero false) = false.
Proof. destruct n as [s|s| |s m e]; try destruct s; intros H; try reflexivity; discriminate H. Qed.

Lemma zero_not_negative s : SFltb (S754_zero s) (S754_zero false) = false.
Proof. reflexivity. Qed.

Section Generic.
Context {rt : JsRuntime}.

(** Claim C1, as the code has it.  Whenever the joined category string
    holds a blocked signal the verdict is blocked with label "Blocked",
    whatever else matches.  When in addition the Talos score is not a
    negative number, the verdict is exactly the one of the first class
    that matches, in the order blocked, review, good, with that class's
    fixed status, label and reason; and when it is a negative number,
    the verdict is the blocked one of the override. *)
Theorem keyword_priority (u : string) talos forti cs :
  catString talos forti = Ok cs ->
  (hasBlocked cs = true ->
     exists v, classifyFromEngines (JStr u) talos forti = Ok v /\
               status v = "blocked" /\ label v = "Blocked") /\
  (scoreIsNegative talos = false ->
     (hasBlocked cs = true ->
        classifyFromEngines (JStr u) talos forti = Ok blockedVerdict) /\
     (hasBlocked cs = false -> hasReview cs = true ->
        classifyFromEngines (JStr u) talos forti = Ok reviewVerdict) /\
     (hasBlocked cs = false -> hasReview cs = false -> hasGood cs = true ->
        classifyFromEngines (JStr u) talos forti = Ok goodVerdict)) /\
  (scoreIsNegative talos = true ->
     classifyFromEngines (JStr u) talos forti = Ok negativeScoreVerdict).
Proof.
  intros Hcs. rewrite (classify_of_catString u _ _ _ Hcs). split; [|split].
  - intros Hb. rewrite (keywordVerdict_blocked _ Hb).
    unfold scoreOverride. destruct (scoreIsNegative talos);
      eexists; split; try reflexivity; split; reflexivity.
  - intros Hs. rewrite (scoreOverride_silent _ _ Hs). repeat split.
    + intros Hb. now rewrite keywordVerdict_blocked.
    + intros Hb Hr. now rewrite keywordVerdict_review.
    + intros Hb Hr Hg. now rewrite keywordVerdict_good.
  - intros Hs. now rewrite (scoreOverride_fires _ _ Hs).
Qed.

(** Claim C2.  Once the keyword step has a result, a Talos fragment
    whose score is a number below zero turns the verdict into the
    blocked one of the override; and with no Talos fragment, or with a
    score that is missing, not a number, zero or above zero, the verdict
    is the keyword step's.  The FortiGuard fragment plays no part. *)
Theorem negative_score_override (u : string) talos forti cs :
  catString talos forti = Ok cs ->
  (forall t n,
      talos = Some t -> talos_score t = JNum n ->
      SFltb n (S754_zero false) = true ->
      classifyFromEngines (JStr u) talos forti = Ok negativeScoreVerdict /\
      status negativeScoreVerdict = "blocked") /\
  ((talos = None \/
    exists t, talos = Some t /\
      (talos_score t = JUndefined \/
       isNumber (talos_score t) = false \/
       (exists s, talos_score t = JNum (S754_zero s)) \/
       (exists n, talos_score t = JNum n /\ SFltb (S754_zero false) n = true))) ->
   classifyFromEngines (JStr u) talos forti = Ok (keywordVerdict cs)).
Proof.
  intros Hcs. rewrite (classify_of_catString u _ _ _ Hcs). split.
  - intros t n -> Hscore Hneg. split; [|reflexivity].
    rewrite scoreOverride_fires; [reflexivity|].
    unfold scoreIsNegative, ltZero. rewrite Hscore. exact Hneg.
  - intros Hquiet. rewrite scoreOverride_silent; [reflexivity|].
    destruct Hquiet as [-> | (t & -> & Hcase)]; [reflexivity|].
    unfold scoreIsNegative, ltZero.
    destruct Hcase as [Habsent | [Hnonnum | [(s & Hzero) | (n & Hnum & Hpos)]]].
    + rewrite Habsent. reflexivity.
    + rewrite Hnonnum. reflexivity.
    + rewrite Hzero. reflexivity.
    + rewrite Hnum. cbn [isNumber andb]. now apply positive_not_negative.
Qed.

(** The sequence of pushes is a filter followed by a map. *)
Lemma catString_as_filter talos forti :
  catString talos forti = joinedCategories truthy " | " talos forti.
Proof.
  unfold catString, joinedCategories, pushLowered.
  generalize (andField talos talos_category) as a.
  generalize (andField forti forti_category) as b.
  generalize (andField forti forti_threat) as c.
  intros c b a. cbn [filter].
  destruct (truthy a), (truthy b), (truthy c); cbn [loweredAll bindR app];
    destruct (toStr a), (toStr b), (toStr c); reflexivity.
Qed.

(** Claim C3, as the code has it.  The string the keyword sets are
    tested against is made of the Talos category, the FortiGuard
    category and the FortiGuard threat, in that order, leaving out every
    falsy one (a missing fragment, null, undefined, the empty string,
    zero, NaN, false), each converted to a string and lowercased, joined
    by " | "; each class matches when one of its lowercase keywords is a
    substring of that string. *)
Theorem catString_built_in_order talos forti :
  catString talos forti = joinedCategories truthy " | " talos forti /\
  (forall cs,
      hasBlocked cs = existsb (fun k => includes cs k) blockedSignals /\
      hasReview cs = existsb (fun k => includes cs k) reviewSignals /\
      hasGood cs = existsb (fun k => includes cs k) goodSignals).
Proof.
  split.
  - apply catString_as_filter.
  - intros cs. repeat split.
Qed.

(** On fields that are strings or null, the falsy ones are exactly the
    null and the empty ones. *)
Lemma truthy_on_strings v :
  (v = JNull \/ exists s, v = JStr s) -> truthy v = notNullNorEmpty v.
Proof. intros [-> | [s ->]]; reflexivity. Qed.

(** Claim C4.  Without any fragment the verdict is the unknown default,
    for every URL string. *)
Theorem classify_without_fragments (u : string) :
  classifyFromEngines (JStr u) None None =
  Ok (mkVerdict "unknown" "Unsure"
        "No strong policy signals from Talos/FortiGuard categories.").
Proof. reflexivity. Qed.

(** Claim C10.  The verdict does not depend on the text of the URL. *)
Theorem classify_ignores_url (u1 u2 : string) talos forti :
  classifyFromEngines (JStr u1) talos forti =
  classifyFromEngines (JStr u2) talos forti.
Proof. rewrite !classify_string_url. reflexivity. Qed.

End Generic.

(** ** Concrete runs *)

#[local] Existing Instance asciiRuntime.

Example phishing_campaign_blocked :
  classifyFromEngines exampleUrl
    (Some (mkTalos (JStr "phishing campaign") JNull JNull)) None
  = Ok blockedVerdict.
Proof. reflexivity. Qed.

Example online_games_review :
  classifyFromEngines exampleUrl None
    (Some (mkForti (JStr "Online Games") JNull JNull))
  = Ok reviewVerdict.
Proof. reflexivity. Qed.

Example business_economy_good :
  classifyFromEngines exampleUrl
    (Some (mkTalos (JStr "Business/Economy") JNull JNull))
    (Some (mkForti JNull JNull JNull))
  = Ok goodVerdict.
Proof. reflexivity. Qed.

Example uppercase_category_matches :
  classifyFromEngines exampleUrl
    (Some (mkTalos (JStr "PHISHING") JNull JNull)) None
  = Ok blockedVerdict /\
  catString (Some (mkTalos (JStr "PhIsHiNg") JNull JNull))
            (Some (mkForti JNull (JStr "High") JNull))
  = Ok "phishing | high".
Proof. split; reflexivity. Qed.

Example blocked_beats_good :
  classifyFromEngines exampleUrl
    (Some (mkTalos (JStr "Education") JNull JNull))
    (Some (mkForti (JStr "Adult Content") JNull JNull))
  = Ok blockedVerdict.
Proof. reflexivity. Qed.

Example negative_score_alone_blocks :
  classifyFromEngines exampleUrl (Some (mkTalos JNull minusOne JNull)) None
  = Ok negativeScoreVerdict.
Proof. reflexivity. Qed.

Example zero_score_does_not_block :
  classifyFromEngines exampleUrl (Some (mkTalos JNull zero JNull)) None
  = Ok unknownVerdict.
Proof. reflexivity. Qed.

Example object_category_with_toString_throws :
  classifyFromEngines exampleUrl
    (Some (mkTalos (JObj [("toString", JNull)]) minusOne JNull)) None
  = Throw TypeError.
Proof. reflexivity. Qed.

(** A review category under a negative score: the keyword step says
    review, the verdict is blocked. *)
Lemma review_signal_under_negative_score :
  ~ (catString (Some gamesNegative) None = Ok "games" ->
     hasBlocked "games" = false ->
     hasReview "games" = true ->
     exists v, classifyFromEngines exampleUrl (Some gamesNegative) None = Ok v /\
               status v = "review").
Proof.
  intros H.
  destruct (H eq_refl eq_refl eq_refl) as (v & Hv & Hstatus).
  vm_compute in Hv. injection Hv as <-. discriminate Hstatus.
Qed.

Lemma keyword_priority_witness :
  classifyFromEngines exampleUrl
    (Some (mkTalos (JStr "Online Games") plusOne JNull)) None
  = Ok reviewVerdict.
Proof.
  apply (keyword_priority "http://example.com"
           (Some (mkTalos (JStr "Online Games") plusOne JNull)) None
           "online games");
    reflexivity.
Defined.

Lemma negative_score_override_witness :
  classifyFromEngines exampleUrl (Some gamesNegative) None
  = Ok negativeScoreVerdict.
Proof.
  assert (Hcs : catString (Some gamesNegative) None = Ok "games") by reflexivity.
  destruct (negative_score_override "http://example.com"
              (Some gamesNegative) None "games" Hcs) as [Hneg _].
  apply (Hneg gamesNegative (S754_finite true 1 0)); reflexivity.
Defined.

(** "search" and "engines" joined by the code do not spell the good
    signal "search engines"; joined by a single space they would. *)
Lemma catString_not_space_joined :
  catString (Some searchTalos) (Some enginesForti)
  <> joinedCategories notNullNorEmpty " " (Some searchTalos) (Some enginesForti).
Proof. vm_compute. discriminate. Qed.

Example separator_changes_verdict :
  catString (Some searchTalos) (Some enginesForti) = Ok "search | engines" /\
  joinedCategories notNullNorEmpty " " (Some searchTalos) (Some enginesForti)
    = Ok "search engines" /\
  classifyFromEngines exampleUrl (Some searchTalos) (Some enginesForti)
    = Ok unknownVerdict /\
  keywordVerdict "search engines" = goodVerdict.
Proof. repeat split. Qed.

End ClassifierSpec.

(* ================================================================== *)
(** * The clients against their description *)
(* ================================================================== *)

Module ClientSpec.

(** Unfolds the plumbing of a client down to the answer of the network. *)
Ltac run_client guard :=
  rewrite guard; unfold tryCatch, bindM, fetch, liftR, ret.

(** Splits on the answer of the network, the status and the body. *)
Ltac split_answer net w :=
  destruct (net w _) as [?res|?e]; [|try (eexists; reflexivity); try reflexivity];
  try (destruct (res_ok res); [|try (eexists; reflexivity); try reflexivity];
       cbn [negb];
       destruct (res_json res) as [?data|?e];
       [|try (eexists; reflexivity); try reflexivity]).

(** The endpoint constants are never empty: an unset or empty variable
    is replaced by the placeholder. *)
Lemma envOr_nonempty x dflt :
  (dflt =? "") = false -> (envOr x dflt =? "") = false.
Proof.
  intros Hd. unfold envOr. destruct x as [s|]; [|exact Hd].
  destruct (s =? "") eqn:Hs; [exact Hd | exact Hs].
Qed.

Lemma TALOS_API_URL_nonempty env : (TALOS_API_URL env =? "") = false.
Proof. now apply envOr_nonempty. Qed.

Lemma FORTIGUARD_API_URL_nonempty env : (FORTIGUARD_API_URL env =? "") = false.
Proof. now apply envOr_nonempty. Qed.

Lemma envOr_unset x dflt :
  x = None \/ x = Some "" -> envOr x dflt = dflt.
Proof. intros [-> | ->]; reflexivity. Qed.

(** Hence the guard at the head of each client never returns, and each
    call hands exactly one request to [fetch]. *)
Lemma queryTalos_always_fetches env net url w :
  snd (queryTalos env net url w) =
  (w ++ [postRequest (TALOS_API_URL env) (TALOS_API_KEY env) url])%list.
Proof.
  unfold queryTalos. run_client TALOS_API_URL_nonempty. split_answer net w.
  destruct (talosFragment data); reflexivity.
Qed.

Lemma queryFortiGuard_always_fetches env net url w :
  snd (queryFortiGuard env net url w) =
  (w ++ [postRequest (FORTIGUARD_API_URL env) (FORTIGUARD_API_KEY env) url])%list.
Proof.
  unfold queryFortiGuard. run_client FORTIGUARD_API_URL_nonempty. split_answer net w.
  destruct (fortiFragment data); reflexivity.
Qed.

(** Neither client throws, whatever the network does. *)
Lemma queryTalos_never_throws env net url w :
  exists r, fst (queryTalos env net url w) = Ok r.
Proof.
  unfold queryTalos. run_client TALOS_API_URL_nonempty. split_answer net w.
  destruct (talosFragment data); eexists; reflexivity.
Qed.

Lemma queryFortiGuard_never_throws env net url w :
  exists r, fst (queryFortiGuard env net url w) = Ok r.
Proof.
  unfold queryFortiGuard. run_client FORTIGUARD_API_URL_nonempty. split_answer net w.
  destruct (fortiFragment data); eexists; reflexivity.
Qed.

(** A rejected request, a non-2xx status and an unparsable body all give
    [null]. *)
Lemma queryTalos_null_on_failure env net url w :
  (net w (postRequest (TALOS_API_URL env) (TALOS_API_KEY env) url) = Throw FetchError \/
   exists res, net w (postRequest (TALOS_API_URL env) (TALOS_API_KEY env) url) = Ok res /\
               (res_ok res = false \/ exists e, res_json res = Throw e)) ->
  fst (queryTalos env net url w) = Ok None.
Proof.
  unfold queryTalos. run_client TALOS_API_URL_nonempty.
  intros [-> | (res & -> & [Hok | (e & Hjson)])]; [reflexivity| |].
  - rewrite Hok. reflexivity.
  - destruct (res_ok res); [|reflexivity]. cbn [negb]. rewrite Hjson. reflexivity.
Qed.

(** [data.k1 || data.k2 || null] on a body that is not null. *)
Lemma firstTruthy_spec data k1 k2 :
  data <> JNull -> data <> JUndefined ->
  firstTruthy data k1 k2 = Ok (firstTruthyOf (propOf data k1) (propOf data k2)).
Proof.
  intros Hnull Hundef. unfold firstTruthy, firstTruthyOf, propOf, jsOr.
  destruct data; try congruence; cbn [getProp bindR].
  1-4: reflexivity.
  destruct (lookup fields k1) as [a|]; cbn [bindR];
    [destruct (truthy a); [reflexivity|] | cbn [truthy] ];
    destruct (lookup fields k2) as [b|]; reflexivity.
Qed.

(** Claim C8, at an unconfigured environment.  With no variable set,
    each client still hands a request for the placeholder endpoint to
    [fetch], and returns whatever the answer maps to: the guard on the
    endpoint does not stop it. *)
Theorem unconfigured_clients_still_fetch net url w :
  snd (queryTalos emptyEnv net url w) =
    (w ++ [postRequest "https://<your-talos-endpoint>" "" url])%list /\
  snd (queryFortiGuard emptyEnv net url w) =
    (w ++ [postRequest "https://<your-fortiguard-endpoint>" "" url])%list /\
  queryTalos emptyEnv (alwaysAnswers (JObj [("category", JStr "malware")]))
             exampleUrl []
  = (Ok (Some (mkTalos (JStr "malware") JNull (JObj [("category", JStr "malware")]))),
     [postRequest "https://<your-talos-endpoint>" "" exampleUrl]).
Proof.
  split; [|split].
  - apply queryTalos_always_fetches.
  - apply queryFortiGuard_always_fetches.
  - reflexivity.
Qed.

(** Claim C9, as the code has it.  For a parsed body other than null,
    each logical field is the primary key's value when that value is
    truthy, else the fallback key's value when truthy, else null; the
    body itself is kept as [raw]; and that record is what the client
    returns on a successful response. *)
Theorem fragment_first_truthy env net url w data :
  data <> JNull -> data <> JUndefined ->
  talosFragment data =
    Ok (mkTalos (firstTruthyOf (propOf data "category") (propOf data "threat_category"))
                (firstTruthyOf (propOf data "score") (propOf data "reputation_score"))
                data) /\
  fortiFragment data =
    Ok (mkForti (firstTruthyOf (propOf data "category") (propOf data "webfilter_category"))
                (firstTruthyOf (propOf data "threat") (propOf data "threat_level"))
                data) /\
  (forall status,
      net w (postRequest (TALOS_API_URL env) (TALOS_API_KEY env) url)
        = Ok (mkHttpResponse true status (Ok data)) ->
      exists frag, talosFragment data = Ok frag /\
                   fst (queryTalos env net url w) = Ok (Some frag)) /\
  (forall status,
      net w (postRequest (FORTIGUARD_API_URL env) (FORTIGUARD_API_KEY env) url)
        = Ok (mkHttpResponse true status (Ok data)) ->
      exists frag, fortiFragment data = Ok frag /\
                   fst (queryFortiGuard env net url w) = Ok (Some frag)).
Proof.
  intros Hnull Hundef.
  assert (HT : talosFragment data =
    Ok (mkTalos (firstTruthyOf (propOf data "category") (propOf data "threat_category"))
                (firstTruthyOf (propOf data "score") (propOf data "reputation_score"))
                data)).
  { unfold talosFragment. rewrite !firstTruthy_spec by assumption. reflexivity. }
  assert (HF : fortiFragment data =
    Ok (mkForti (firstTruthyOf (propOf data "category") (propOf data "webfilter_category"))
                (firstTruthyOf (propOf data "threat") (propOf data "threat_level"))
                data)).
  { unfold fortiFragment. rewrite !firstTruthy_spec by assumption. reflexivity. }
  split; [exact HT|]. split; [exact HF|]. split.
  - intros st Hnet. eexists. split; [exact HT|].
    unfold queryTalos. run_client TALOS_API_URL_nonempty. rewrite Hnet.
    cbn [res_ok res_json negb]. rewrite HT. reflexivity.
  - intros st Hnet. eexists. split; [exact HF|].
    unfold queryFortiGuard. run_client FORTIGUARD_API_URL_nonempty. rewrite Hnet.
    cbn [res_ok res_json negb]. rewrite HF. reflexivity.
Qed.

Lemma fragment_first_truthy_witness :
  talosFragment zeroThenNegative =
    Ok (mkTalos (JStr "malware") minusOne zeroThenNegative).
Proof.
  apply (fragment_first_truthy emptyEnv unreachable exampleUrl [] zeroThenNegative);
    discriminate.
Defined.

(** A zero score is not null, yet the fallback key's value is taken. *)
Lemma zero_score_falls_through :
  talosFragment zeroThenNegative <>
  Ok (mkTalos
        (firstNonNull (propOf zeroThenNegative "category")
                      (propOf zeroThenNegative "threat_category"))
        (firstNonNull (propOf zeroThenNegative "score")
                      (propOf zeroThenNegative "reputation_score"))
        zeroThenNegative).
Proof. vm_compute. discriminate. Qed.

Example first_non_null_would_keep_zero :
  firstNonNull (propOf zeroThenNegative "score")
               (propOf zeroThenNegative "reputation_score") = zero /\
  firstNonNull (propOf zeroThenNegative "category")
               (propOf zeroThenNegative "threat_category") = JStr "".
Proof. split; reflexivity. Qed.

(** A null body parses, but reading a property of it throws, and the
    client answers [null]. *)
Example null_body_gives_null :
  queryTalos emptyEnv (alwaysAnswers JNull) exampleUrl []
  = (Ok None, [postRequest "https://<your-talos-endpoint>" "" exampleUrl]).
Proof. reflexivity. Qed.

End ClientSpec.

(* ================================================================== *)
(** * The route against its description *)
(* ================================================================== *)

Module RouteSpec.

Section Generic.
Context {rt : JsRuntime}.
Variable queryTalos : JsVal -> M (option TalosFragment).
Variable queryFortiGuard : JsVal -> M (option FortiFragment).

Notation scanUrl := (scanUrl queryTalos queryFortiGuard).
Notation forEachUrl := (forEachUrl queryTalos queryFortiGuard).
Notation apiScan := (apiScan queryTalos queryFortiGuard).

(** One turn of the loop never throws: it appends exactly one entry,
    which carries the URL and does not depend on the entries before it.
    The world afterwards is the one both clients leave behind, and the
    entry is the error entry as soon as one client throws. *)
Lemma scanUrl_entry url w :
  exists r,
    (forall results,
        scanUrl url results w =
        (Ok (results ++ [r])%list,
         snd (queryFortiGuard url (snd (queryTalos url w))))) /\
    sr_url r = url /\
    ((exists e, fst (queryTalos url w) = Throw e) \/
     (exists e, fst (queryFortiGuard url (snd (queryTalos url w))) = Throw e) ->
     r = errorResult url).
Proof.
  unfold Route.scanUrl, tryCatch, bindM, bothClients, liftR, ret.
  destruct (queryTalos url w) as [t w1]. cbn [fst snd].
  destruct (queryFortiGuard url w1) as [f w2]. cbn [fst snd].
  destruct t as [talos|e1], f as [fortiguard|e2]; cbn [fst snd].
  - destruct (classifyFromEngines url talos fortiguard) as [verdict|e].
    + exists (verdictResult url verdict talos fortiguard).
      split; [reflexivity|]. split; [reflexivity|].
      intros [[e He] | [e He]]; discriminate He.
    + exists (errorResult url).
      split; [reflexivity|]. split; reflexivity.
  - exists (errorResult url). repeat split.
  - exists (errorResult url). repeat split.
  - exists (errorResult url). repeat split.
Qed.

(** The loop never throws either: it appends one entry per URL, in
    order, whatever the clients do. *)
Lemma forEachUrl_entries urls :
  forall w, exists rs w',
    (forall results, forEachUrl urls results w = (Ok (results ++ rs)%list, w')) /\
    map sr_url rs = urls.
Proof.
  induction urls as [|url rest IH]; intros w.
  - exists [], w. split; [|reflexivity].
    intros results. cbn. now rewrite app_nil_r.
  - destruct (scanUrl_entry url w) as (r & Hr & Hurl & _).
    destruct (IH (snd (queryFortiGuard url (snd (queryTalos url w)))))
      as (rs & w' & Hrs & Hmap).
    exists (r :: rs), w'. split.
    + intros results. cbn [Route.forEachUrl]. unfold bindM.
      rewrite Hr, Hrs, <- app_assoc. reflexivity.
    + cbn [map]. now rewrite Hurl, Hmap.
Qed.

(** Running the loop over a concatenation is running it over each part
    in turn. *)
Lemma forEachUrl_app xs ys w rs1 w1 rs2 w2 :
  forEachUrl xs [] w = (Ok rs1, w1) ->
  forEachUrl ys [] w1 = (Ok rs2, w2) ->
  forall results,
    forEachUrl (xs ++ ys) results w = (Ok (results ++ rs1 ++ rs2)%list, w2).
Proof.
  revert w rs1 w1. induction xs as [|x xs IH]; intros w rs1 w1 H1 H2 results.
  - cbn in H1. injection H1 as <- <-. cbn [app].
    destruct (forEachUrl_entries ys w) as (rs & w' & Hrs & _).
    rewrite Hrs. rewrite (Hrs []) in H2. cbn [app] in H2.
    injection H2 as <- <-. reflexivity.
  - destruct (scanUrl_entry x w) as (r & Hr & _ & _).
    cbn [Route.forEachUrl app] in H1 |- *. unfold bindM in H1 |- *.
    rewrite Hr in H1 |- *. cbn [app] in H1.
    destruct (forEachUrl_entries xs (snd (queryFortiGuard x (snd (queryTalos x w)))))
      as (rs & w' & Hrs & _).
    rewrite Hrs in H1. injection H1 as <- <-.
    rewrite (IH _ rs w' (Hrs []) H2 (results ++ [r])%list).
    cbn [app]. now rewrite <- app_assoc.
Qed.

(** Claim C5.  For a non-empty array of URLs the handler answers with
    exactly one entry per URL, in the order of the input, whatever the
    clients return or throw. *)
Theorem scan_preserves_order body urls w :
  getProp body "urls" = Ok (JArr urls) ->
  urls <> [] ->
  exists results w',
    apiScan body w = (Ok (mkReply 200 None results), w') /\
    map sr_url results = urls /\
    length results = length urls.
Proof.
  intros Hbody Hne.
  destruct (forEachUrl_entries urls w) as (rs & w' & Hrs & Hmap).
  exists rs, w'. split; [|split].
  - unfold Route.apiScan, bindM, liftR, ret. rewrite Hbody.
    destruct urls as [|u us]; [contradiction|].
    cbn [length Nat.eqb]. rewrite (Hrs []). reflexivity.
  - exact Hmap.
  - rewrite <- Hmap. now rewrite length_map.
Qed.

(** Claim C6, as the code has it.  When a client throws for one URL of
    the batch, the entry for that URL is the fixed error entry - status
    unknown, label "Unsure", reason "Error querying Talos/FortiGuard."
    whichever client failed, both fragments null - and the entries
    before and after it are those the loop produces for these URLs on
    their own. *)
Theorem failing_url_is_isolated body before url after w
    rs1 w1 t wT f w2 rs2 w3 :
  getProp body "urls" = Ok (JArr (before ++ url :: after)) ->
  forEachUrl before [] w = (Ok rs1, w1) ->
  queryTalos url w1 = (t, wT) ->
  queryFortiGuard url wT = (f, w2) ->
  (exists e, t = Throw e) \/ (exists e, f = Throw e) ->
  forEachUrl after [] w2 = (Ok rs2, w3) ->
  apiScan body w =
  (Ok (mkReply 200 None
         (rs1 ++ mkScanResult url "unknown" "Unsure"
                   "Error querying Talos/FortiGuard." None None :: rs2)),
   w3).
Proof.
  intros Hbody Hbefore Ht Hf Hthrows Hafter.
  unfold Route.apiScan, bindM, liftR, ret. rewrite Hbody.
  assert (Hlen : (length (before ++ url :: after) =? 0)%nat = false).
  { rewrite length_app. cbn [length]. apply Nat.eqb_neq. lia. }
  rewrite Hlen.
  destruct (scanUrl_entry url w1) as (r & Hr & _ & Herr).
  rewrite Ht in Hr, Herr. cbn [fst snd] in Hr, Herr.
  rewrite Hf in Hr, Herr. cbn [fst snd] in Hr, Herr.
  specialize (Herr Hthrows). subst r.
  assert (Htail : forEachUrl (url :: after) [] w1 = (Ok (errorResult url :: rs2), w3)).
  { cbn [Route.forEachUrl]. unfold bindM. rewrite Hr. cbn [app].
    destruct (forEachUrl_entries after w2) as (rs & w' & Hrs & _).
    rewrite Hrs. rewrite (Hrs []) in Hafter. injection Hafter as <- <-.
    reflexivity. }
  rewrite (forEachUrl_app _ _ _ _ _ _ _ Hbefore Htail []).
  reflexivity.
Qed.

(** For a body that was parsed: when [urls] is not an array, or is the
    empty array, the handler answers 400 with an error and an empty
    result list, and the world is untouched: no client runs and no
    request is made. *)
Theorem scan_rejects_missing_urls body v w :
  getProp body "urls" = Ok v ->
  isArray v = false \/ v = JArr [] ->
  apiScan body w = (Ok (mkReply 400 (Some "No URLs provided.") []), w).
Proof.
  intros Hbody Hv. unfold Route.apiScan, bindM, liftR, ret. rewrite Hbody.
  destruct Hv as [Hv | ->]; [|reflexivity].
  destruct v; try reflexivity. discriminate Hv.
Qed.

(** A URL that is not a string makes the classifier throw, which the
    loop turns into the error entry as well. *)
Lemma non_string_url_entry url w talos fortiguard w1 w2 results :
  (forall u, url <> JStr u) ->
  queryTalos url w = (Ok talos, w1) ->
  queryFortiGuard url w1 = (Ok fortiguard, w2) ->
  scanUrl url results w = (Ok (results ++ [errorResult url])%list, w2).
Proof.
  intros Hurl Ht Hf.
  unfold Route.scanUrl, tryCatch, bindM, bothClients, liftR, ret.
  rewrite Ht, Hf. cbn [fst snd].
  rewrite (classify_non_string_url _ _ _ Hurl). reflexivity.
Qed.

End Generic.

(** ** Concrete runs *)

#[local] Existing Instance asciiRuntime.

Lemma scan_preserves_order_witness :
  exists results w',
    apiScan talosFailingOnB silentForti
            (bodyOf [JStr "a"; JStr "b"; JStr "a"]) []
      = (Ok (mkReply 200 None results), w') /\
    map sr_url results = [JStr "a"; JStr "b"; JStr "a"] /\
    length results = 3%nat.
Proof.
  apply (scan_preserves_order talosFailingOnB silentForti
           (bodyOf [JStr "a"; JStr "b"; JStr "a"])
           [JStr "a"; JStr "b"; JStr "a"] []);
    [reflexivity | discriminate].
Defined.

Lemma failing_url_is_isolated_witness :
  apiScan talosFailingOnB silentForti
          (bodyOf [JStr "a"; JStr "b"; JStr "c"]) []
  = (Ok (mkReply 200 None
           [ mkScanResult (JStr "a") "blocked" "Blocked" (reason blockedVerdict)
               (Some (mkTalos (JStr "Malware") JNull JNull)) None;
             mkScanResult (JStr "b") "unknown" "Unsure"
               "Error querying Talos/FortiGuard." None None;
             mkScanResult (JStr "c") "blocked" "Blocked" (reason blockedVerdict)
               (Some (mkTalos (JStr "Malware") JNull JNull)) None ]),
     []).
Proof.
  apply (failing_url_is_isolated talosFailingOnB silentForti
           (bodyOf [JStr "a"; JStr "b"; JStr "c"])
           [JStr "a"] (JStr "b") [JStr "c"] []
           [ mkScanResult (JStr "a") "blocked" "Blocked" (reason blockedVerdict)
               (Some (mkTalos (JStr "Malware") JNull JNull)) None ]
           [] (Throw (OtherError "talos")) [] (Ok None) []
           [ mkScanResult (JStr "c") "blocked" "Blocked" (reason blockedVerdict)
               (Some (mkTalos (JStr "Malware") JNull JNull)) None ]
           []);
    try reflexivity.
  left. exists (OtherError "talos"). reflexivity.
Defined.

Lemma scan_rejects_missing_urls_witness :
  apiScan talosFailingOnB silentForti (bodyOf []) []
    = (Ok (mkReply 400 (Some "No URLs provided.") []), []) /\
  apiScan talosFailingOnB silentForti (JObj [("urls", JStr "http://example.com")]) []
    = (Ok (mkReply 400 (Some "No URLs provided.") []), []).
Proof.
  split.
  - apply (scan_rejects_missing_urls talosFailingOnB silentForti
             (bodyOf []) (JArr []) []); [reflexivity | right; reflexivity].
  - apply (scan_rejects_missing_urls talosFailingOnB silentForti
             (JObj [("urls", JStr "http://example.com")])
             (JStr "http://example.com") []); [reflexivity | left; reflexivity].
Defined.

(** The error entry reads the same whichever client threw; it does not
    single out Talos when Talos is the one that failed. *)
Lemma error_reason_does_not_name_the_service :
  ~ (exists r,
        fst (apiScan throwingTalos silentForti (bodyOf [exampleUrl]) [])
          = Ok (mkReply 200 None [r]) /\
        sr_reason r = errorNaming "Talos").
Proof.
  intros (r & Hrun & Hreason).
  vm_compute in Hrun. injection Hrun as <-.
  vm_compute in Hreason. discriminate Hreason.
Qed.

Example same_entry_for_either_failure :
  fst (apiScan throwingTalos silentForti (bodyOf [exampleUrl]) []) =
  fst (apiScan silentTalos throwingForti (bodyOf [exampleUrl]) []) /\
  fst (apiScan throwingTalos silentForti (bodyOf [exampleUrl]) []) =
  Ok (mkReply 200 None [errorResult exampleUrl]).
Proof. split; reflexivity. Qed.

(** The deployed server hands two requests per URL to [fetch], Talos
    first, in the order of the batch, whatever the network answers. *)
Lemma deployed_requests env net urls :
  forall results w,
    snd (forEachUrl (Clients.queryTalos env net) (Clients.queryFortiGuard env net)
           urls results w) =
    (w ++ flat_map
            (fun url =>
               [ postRequest (TALOS_API_URL env) (TALOS_API_KEY env) url;
                 postRequest (FORTIGUARD_API_URL env) (FORTIGUARD_API_KEY env) url ])
            urls)%list.
Proof.
  induction urls as [|url rest IH]; intros results w.
  - cbn. now rewrite app_nil_r.
  - destruct (scanUrl_entry (Clients.queryTalos env net)
                (Clients.queryFortiGuard env net) url w) as (r & Hr & _ & _).
    cbn [forEachUrl flat_map]. unfold bindM. rewrite Hr, IH.
    rewrite ClientSpec.queryFortiGuard_always_fetches,
            ClientSpec.queryTalos_always_fetches.
    now rewrite <- !app_assoc.
Qed.

(** The deployed server on a dead network: every URL gets the unknown
    verdict of the classifier, and two requests are made per URL. *)
Example server_on_dead_network :
  server emptyEnv unreachable (bodyOf [JStr "a"]) [] =
  (Ok (mkReply 200 None
         [ mkScanResult (JStr "a") "unknown" "Unsure"
             "No strong policy signals from Talos/FortiGuard categories."
             None None ]),
   [ postRequest "https://<your-talos-endpoint>" "" (JStr "a");
     postRequest "https://<your-fortiguard-endpoint>" "" (JStr "a") ]).
Proof. reflexivity. Qed.

Example server_rejects_empty_batch :
  server emptyEnv unreachable (bodyOf []) [] =
  (Ok (mkReply 400 (Some "No URLs provided.") []), []).
Proof. reflexivity. Qed.

End RouteSpec.

(* ================================================================== *)
(** * Further properties of the classifier *)
(* ================================================================== *)

Module ClassifierProps.

(** ** Keywords and the separator *)

Lemma tailClean_tail d k : tailClean (String d k) = true -> tailClean k = true.
Proof. cbn [tailClean]. intros H. now apply andb_prop in H as [_ H]. Qed.

Lemma tailClean_no_bar d k : tailClean (String d k) = true -> Ascii.eqb d "|" = false.
Proof.
  cbn [tailClean]. intros H. apply andb_prop in H as [H _].
  apply andb_prop in H as [H _]. now apply negb_true_iff in H.
Qed.

Lemma tailClean_last d : tailClean (String d "") = true -> Ascii.eqb d " " = false.
Proof.
  cbn [tailClean]. intros H. apply andb_prop in H as [H _].
  apply andb_prop in H as [_ H]. now apply negb_true_iff in H.
Qed.

(** A keyword that starts inside a field cannot run into the separator:
    it would have to end with the separator's space or hold its bar. *)
Lemma startsWith_before_separator b a :
  forall k, tailClean k = true ->
    startsWith (a ++ " | " ++ b) k = startsWith a k.
Proof.
  induction a as [|c a IH]; intros k Hk.
  - destruct k as [|d k]; [reflexivity|].
    cbn [append startsWith].
    destruct k as [|e k].
    + now rewrite (tailClean_last _ Hk).
    + cbn [startsWith].
      rewrite (tailClean_no_bar _ _ (tailClean_tail _ _ Hk)).
      cbn [andb]. apply andb_false_r.
  - destruct k as [|d k]; [reflexivity|].
    cbn [append startsWith]. rewrite <- (IH k (tailClean_tail _ _ Hk)).
    reflexivity.
Qed.

(** Nor can it start inside the separator. *)
Lemma startsWith_in_separator b k :
  cleanKeyword k = true ->
  startsWith (" | " ++ b) k = false /\
  startsWith ("| " ++ b) k = false /\
  startsWith (" " ++ b) k = false.
Proof.
  destruct k as [|d k]; [discriminate|]. cbn [cleanKeyword].
  intros H. apply andb_prop in H as [Hsp Hk].
  apply negb_true_iff in Hsp. cbn [append startsWith].
  rewrite Hsp, (tailClean_no_bar _ _ Hk). repeat split.
Qed.

Lemma includes_empty k : cleanKeyword k = true -> includes "" k = false.
Proof. destruct k; [discriminate | reflexivity]. Qed.

(** So a clean keyword occurs in two strings joined by the separator
    exactly when it occurs in one of them. *)
Lemma includes_across_separator k a b :
  cleanKeyword k = true ->
  includes (a ++ " | " ++ b) k = includes a k || includes b k.
Proof.
  intros Hk.
  assert (Htail : tailClean k = true).
  { destruct k; [discriminate|]. cbn [cleanKeyword] in Hk.
    now apply andb_prop in Hk as [_ Hk]. }
  induction a as [|c a IH].
  - rewrite (includes_empty _ Hk). cbn [orb append].
    destruct (startsWith_in_separator b k Hk) as (H1 & H2 & H3).
    cbn [append] in H1, H2, H3.
    cbn [includes]. now rewrite H1, H2, H3.
  - change (String c a ++ " | " ++ b) with (String c (a ++ " | " ++ b)).
    cbn [includes]. rewrite IH.
    change (String c (a ++ " | " ++ b)) with (String c a ++ " | " ++ b).
    rewrite (startsWith_before_separator b (String c a) k Htail).
    now rewrite orb_assoc.
Qed.

Lemma includes_join k parts :
  cleanKeyword k = true ->
  includes (join " | " parts) k = existsb (fun p => includes p k) parts.
Proof.
  intros Hk. induction parts as [|x rest IH].
  - apply (includes_empty _ Hk).
  - destruct rest as [|y rest].
    + cbn [join concat existsb]. now rewrite orb_false_r.
    + change (join " | " (x :: y :: rest))
        with (x ++ " | " ++ join " | " (y :: rest)).
      rewrite (includes_across_separator _ _ _ Hk), IH. reflexivity.
Qed.

Lemma existsb_orb {A} (f g : A -> bool) l :
  existsb (fun x => f x || g x) l = existsb f l || existsb g l.
Proof.
  induction l as [|x l IH]; [reflexivity|]. cbn [existsb]. rewrite IH.
  destruct (f x), (g x), (existsb f l); reflexivity.
Qed.

Lemma someIncluded_join signals parts :
  forallb cleanKeyword signals = true ->
  someIncluded signals (join " | " parts) = existsb (someIncluded signals) parts.
Proof.
  unfold someIncluded. induction signals as [|k signals IH]; intros Hclean.
  - cbn [existsb]. induction parts as [|p parts IHp]; [reflexivity|].
    cbn [existsb]. now rewrite <- IHp.
  - cbn [forallb] in Hclean. apply andb_prop in Hclean as [Hk Hrest].
    cbn [existsb]. rewrite (includes_join _ parts Hk), (IH Hrest).
    now rewrite <- existsb_orb.
Qed.

Lemma signal_lists_clean :
  forallb cleanKeyword blockedSignals = true /\
  forallb cleanKeyword reviewSignals = true /\
  forallb cleanKeyword goodSignals = true.
Proof. repeat split. Qed.

Section Generic.
Context {rt : JsRuntime}.

(** Property X1.  The joined string is the kept fields, lowercased, put
    together with " | "; and each keyword class matches the joined
    string exactly when it matches one of these fields on its own: no
    keyword is matched across the boundary between two fields. *)
Theorem signals_match_per_field talos forti cs :
  catString talos forti = Ok cs ->
  exists parts,
    loweredAll (filter truthy (categoryFields talos forti)) = Ok parts /\
    cs = join " | " parts /\
    hasBlocked cs = existsb hasBlocked parts /\
    hasReview cs = existsb hasReview parts /\
    hasGood cs = existsb hasGood parts.
Proof.
  rewrite ClassifierSpec.catString_as_filter.
  unfold joinedCategories, categoryFields.
  destruct (loweredAll _) as [parts|e]; [|discriminate].
  cbn [bindR]. intros [= <-]. exists parts.
  destruct signal_lists_clean as (Hb & Hr & Hg).
  split; [reflexivity|]. split; [reflexivity|].
  unfold hasBlocked, hasReview, hasGood.
  now rewrite !someIncluded_join.
Qed.

(** Property X2.  Once the joined string exists, the verdict is the
    unknown default exactly when no keyword of any class occurs in it
    and the Talos score is not a negative number. *)
Theorem unknown_exactly_without_signals (u : string) talos forti cs :
  catString talos forti = Ok cs ->
  classifyFromEngines (JStr u) talos forti = Ok unknownVerdict <->
  hasBlocked cs = false /\ hasReview cs = false /\ hasGood cs = false /\
  scoreIsNegative talos = false.
Proof.
  intros Hcs. rewrite (classify_of_catString u _ _ _ Hcs).
  unfold scoreOverride, keywordVerdict. split.
  - destruct (scoreIsNegative talos); [discriminate|].
    destruct (hasBlocked cs); [discriminate|].
    destruct (hasReview cs); [discriminate|].
    destruct (hasGood cs); [discriminate|]. now repeat split.
  - intros (-> & -> & -> & ->). reflexivity.
Qed.

(** Property X3.  Whatever the arguments, a verdict that is returned is
    one of five fixed records, so its status and label are one of the
    four pairs unknown/Unsure, blocked/Blocked, review/Needs review and
    good/Good. *)
Theorem verdict_is_one_of_five url talos forti v :
  classifyFromEngines url talos forti = Ok v ->
  In v allVerdicts /\ In (status v, label v) statusLabels.
Proof.
  unfold classifyFromEngines.
  destruct (toLowerCase url) as [lowerUrl|e]; [|discriminate]. cbn [bindR].
  destruct (catString talos forti) as [cs|e]; [|discriminate]. cbn [bindR].
  intros [= <-]. unfold scoreOverride, keywordVerdict.
  destruct (scoreIsNegative talos); [cbn; intuition|].
  destruct (hasBlocked cs); [cbn; intuition|].
  destruct (hasReview cs); [cbn; intuition|].
  destruct (hasGood cs); cbn; intuition.
Qed.

(** Property X4.  For a URL string and category fields that hold no
    array and no object, the classifier returns a verdict: it throws
    only on the way through [String] of an object (or of an array that
    holds one) or on a URL that is not a string. *)
Theorem classify_defined_on_scalars (u : string) talos forti :
  forallb isScalar (categoryFields talos forti) = true ->
  exists v, classifyFromEngines (JStr u) talos forti = Ok v.
Proof.
  unfold categoryFields. cbn [forallb]. intros H.
  apply andb_prop in H as [H1 H]. apply andb_prop in H as [H2 H].
  apply andb_prop in H as [H3 _].
  destruct (catString_scalar talos forti) as [cs Hcs].
  - destruct (andField talos talos_category); try exact I; discriminate H1.
  - destruct (andField forti forti_category); try exact I; discriminate H2.
  - destruct (andField forti forti_threat); try exact I; discriminate H3.
  - exists (scoreOverride talos (keywordVerdict cs)).
    now apply classify_of_catString.
Qed.

(** Two strings with the same lowercase form, empty together, are
    pushed alike. *)
Lemma pushLowered_same_lowercase s1 s2 categories :
  String_toLowerCase s1 = String_toLowerCase s2 ->
  (s1 =? "") = (s2 =? "") ->
  pushLowered (JStr s1) categories = pushLowered (JStr s2) categories.
Proof.
  intros Hlow Hempty. unfold pushLowered. cbn [truthy toStr bindR].
  now rewrite Hempty, Hlow.
Qed.

(** Property X5.  The classifier reads the three category strings only
    through [toLowerCase] and through their being empty or not, and it
    does not read the raw payloads: fragments whose category strings
    have the same lowercase form, and are empty together, get the same
    result when the Talos score is the same. *)
Theorem case_is_ignored (u : string) a1 a2 b1 b2 c1 c2 score raw1 raw2 raw3 raw4 :
  String_toLowerCase a1 = String_toLowerCase a2 -> (a1 =? "") = (a2 =? "") ->
  String_toLowerCase b1 = String_toLowerCase b2 -> (b1 =? "") = (b2 =? "") ->
  String_toLowerCase c1 = String_toLowerCase c2 -> (c1 =? "") = (c2 =? "") ->
  classifyFromEngines (JStr u)
    (Some (mkTalos (JStr a1) score raw1)) (Some (mkForti (JStr b1) (JStr c1) raw2))
  = classifyFromEngines (JStr u)
    (Some (mkTalos (JStr a2) score raw3)) (Some (mkForti (JStr b2) (JStr c2) raw4)).
Proof.
  intros Ha Ha' Hb Hb' Hc Hc'. rewrite !classify_string_url. unfold catString.
  cbn [andField talos_category forti_category forti_threat].
  rewrite (pushLowered_same_lowercase _ _ _ Ha Ha').
  destruct (pushLowered (JStr a2) []) as [k1|e]; [|reflexivity]. cbn [bindR].
  rewrite (pushLowered_same_lowercase _ _ _ Hb Hb').
  destruct (pushLowered (JStr b2) k1) as [k2|e]; [|reflexivity]. cbn [bindR].
  rewrite (pushLowered_same_lowercase _ _ _ Hc Hc').
  reflexivity.
Qed.

End Generic.

(** ** Concrete runs, on ASCII text *)

#[local] Existing Instance asciiRuntime.

Lemma signals_match_per_field_witness :
  hasGood "search | engines" = existsb hasGood ["search"; "engines"].
Proof.
  assert (Hcs : catString (Some searchTalos) (Some enginesForti)
                = Ok "search | engines") by reflexivity.
  destruct (signals_match_per_field (Some searchTalos) (Some enginesForti)
              "search | engines" Hcs)
    as (parts & Hparts & _ & _ & _ & Hgood).
  injection Hparts as <-. exact Hgood.
Defined.

Lemma unknown_exactly_without_signals_witness :
  classifyFromEngines exampleUrl (Some searchTalos) (Some enginesForti)
  = Ok unknownVerdict.
Proof.
  assert (Hcs : catString (Some searchTalos) (Some enginesForti)
                = Ok "search | engines") by reflexivity.
  apply (unknown_exactly_without_signals "http://example.com"
           (Some searchTalos) (Some enginesForti) "search | engines" Hcs).
  repeat split.
Defined.

Lemma verdict_is_one_of_five_witness :
  In negativeScoreVerdict allVerdicts /\
  In (status negativeScoreVerdict, label negativeScoreVerdict) statusLabels.
Proof.
  apply (verdict_is_one_of_five exampleUrl (Some gamesNegative) None).
  reflexivity.
Defined.

Lemma classify_defined_on_scalars_witness :
  exists v, classifyFromEngines exampleUrl (Some gamesNegative)
              (Some (mkForti (JBool true) minusOne (JObj []))) = Ok v.
Proof.
  apply (classify_defined_on_scalars "http://example.com").
  reflexivity.
Defined.

Lemma case_is_ignored_witness :
  classifyFromEngines exampleUrl
    (Some (mkTalos (JStr "PHISHING") zero JNull))
    (Some (mkForti (JStr "News") (JStr "LOW") JNull))
  = classifyFromEngines exampleUrl
    (Some (mkTalos (JStr "phishing") zero (JObj [])))
    (Some (mkForti (JStr "NEWS") (JStr "low") (JArr []))).
Proof.
  apply (case_is_ignored "http://example.com"); reflexivity.
Defined.

End ClassifierProps.

(* ================================================================== *)
(** * Further properties of the clients *)
(* ================================================================== *)

Module ClientProps.

Import ClientSpec.

(** Without a usable answer a client returns [null], after its one
    request. *)
Lemma queryTalos_no_answer env net url w :
  noAnswer (net w (postRequest (TALOS_API_URL env) (TALOS_API_KEY env) url)) = true ->
  queryTalos env net url w =
  (Ok None, (w ++ [postRequest (TALOS_API_URL env) (TALOS_API_KEY env) url])%list).
Proof.
  unfold queryTalos. run_client TALOS_API_URL_nonempty.
  destruct (net w _) as [res|e]; [|reflexivity].
  cbn [noAnswer]. intros ->. reflexivity.
Qed.

Lemma queryFortiGuard_no_answer env net url w :
  noAnswer (net w (postRequest (FORTIGUARD_API_URL env) (FORTIGUARD_API_KEY env) url)) = true ->
  queryFortiGuard env net url w =
  (Ok None, (w ++ [postRequest (FORTIGUARD_API_URL env) (FORTIGUARD_API_KEY env) url])%list).
Proof.
  unfold queryFortiGuard. run_client FORTIGUARD_API_URL_nonempty.
  destruct (net w _) as [res|e]; [|reflexivity].
  cbn [noAnswer]. intros ->. reflexivity.
Qed.

(** A body that cannot be read, or that is [null], gives [null] too. *)
Lemma queryTalos_bad_body env net url w res :
  net w (postRequest (TALOS_API_URL env) (TALOS_API_KEY env) url) = Ok res ->
  (exists e, res_json res = Throw e) \/ res_json res = Ok JNull ->
  fst (queryTalos env net url w) = Ok None.
Proof.
  unfold queryTalos. run_client TALOS_API_URL_nonempty. intros ->.
  destruct (res_ok res); [|reflexivity]. cbn [negb].
  intros [[e ->] | ->]; reflexivity.
Qed.

Lemma queryFortiGuard_bad_body env net url w res :
  net w (postRequest (FORTIGUARD_API_URL env) (FORTIGUARD_API_KEY env) url) = Ok res ->
  (exists e, res_json res = Throw e) \/ res_json res = Ok JNull ->
  fst (queryFortiGuard env net url w) = Ok None.
Proof.
  unfold queryFortiGuard. run_client FORTIGUARD_API_URL_nonempty. intros ->.
  destruct (res_ok res); [|reflexivity]. cbn [negb].
  intros [[e ->] | ->]; reflexivity.
Qed.

Lemma envOr_set s dflt : s <> "" -> envOr (Some s) dflt = s.
Proof.
  intros Hs. cbn [envOr]. destruct (s =? "") eqn:E; [|reflexivity].
  apply String.eqb_eq in E. contradiction.
Qed.

Lemma headersFor_key k :
  k <> "" ->
  headersFor k = [("Content-Type", "application/json"); ("Authorization", "Bearer " ++ k)].
Proof.
  intros Hk. unfold headersFor. destruct (k =? "") eqn:E; [|reflexivity].
  apply String.eqb_eq in E. contradiction.
Qed.

Lemma firstTruthy_null_or_truthy data k1 k2 v :
  firstTruthy data k1 k2 = Ok v -> v = JNull \/ truthy v = true.
Proof.
  unfold firstTruthy, jsOr.
  destruct (getProp data k1) as [a|e]; [|discriminate]. cbn [bindR].
  destruct (truthy a) eqn:Ha.
  - intros [= <-]. now right.
  - destruct (getProp data k2) as [b|e]; [|discriminate]. cbn [bindR].
    destruct (truthy b) eqn:Hb; intros [= <-]; [now right | now left].
Qed.

(** Property X6.  Neither client ever throws: whatever the network
    does - reject, answer with any status, send any body - each call
    returns a fragment or [null]. *)
Theorem clients_never_throw env net url w :
  (exists talos, fst (queryTalos env net url w) = Ok talos) /\
  (exists forti, fst (queryFortiGuard env net url w) = Ok forti).
Proof.
  split.
  - apply queryTalos_never_throws.
  - apply queryFortiGuard_never_throws.
Qed.

(** Property X7.  Each call hands exactly one request to [fetch],
    whatever the answer: a POST whose body is the object [{ url }],
    addressed to the endpoint of the environment when one is set, with
    the content type header, followed by [Authorization: Bearer <key>]
    exactly when a non-empty key is set. *)
Theorem request_shape env net url w :
  exists rT rF,
    snd (queryTalos env net url w) = (w ++ [rT])%list /\
    snd (queryFortiGuard env net url w) = (w ++ [rF])%list /\
    (req_method rT = "POST" /\ req_body rT = JObj [("url", url)]) /\
    (req_method rF = "POST" /\ req_body rF = JObj [("url", url)]) /\
    (forall s, env_TALOS_API_URL env = Some s -> s <> "" -> req_endpoint rT = s) /\
    (forall s, env_FORTIGUARD_API_URL env = Some s -> s <> "" -> req_endpoint rF = s) /\
    (forall k, env_TALOS_API_KEY env = Some k -> k <> "" ->
       req_headers rT = [("Content-Type", "application/json");
                         ("Authorization", "Bearer " ++ k)]) /\
    (forall k, env_FORTIGUARD_API_KEY env = Some k -> k <> "" ->
       req_headers rF = [("Content-Type", "application/json");
                         ("Authorization", "Bearer " ++ k)]) /\
    (env_TALOS_API_KEY env = None \/ env_TALOS_API_KEY env = Some "" ->
       req_headers rT = [("Content-Type", "application/json")]) /\
    (env_FORTIGUARD_API_KEY env = None \/ env_FORTIGUARD_API_KEY env = Some "" ->
       req_headers rF = [("Content-Type", "application/json")]).
Proof.
  exists (postRequest (TALOS_API_URL env) (TALOS_API_KEY env) url),
         (postRequest (FORTIGUARD_API_URL env) (FORTIGUARD_API_KEY env) url).
  split; [apply queryTalos_always_fetches|].
  split; [apply queryFortiGuard_always_fetches|].
  split; [split; reflexivity|]. split; [split; reflexivity|].
  cbn [postRequest req_endpoint req_headers].
  unfold TALOS_API_URL, FORTIGUARD_API_URL, TALOS_API_KEY, FORTIGUARD_API_KEY.
  repeat split.
  - intros s -> Hs. now apply envOr_set.
  - intros s -> Hs. now apply envOr_set.
  - intros k -> Hk. rewrite (envOr_set _ _ Hk). now apply headersFor_key.
  - intros k -> Hk. rewrite (envOr_set _ _ Hk). now apply headersFor_key.
  - intros H. now rewrite (envOr_unset _ _ H).
  - intros H. now rewrite (envOr_unset _ _ H).
Qed.

(** Property X8.  A client returns [null] whenever the request gets no
    usable answer: [fetch] rejects, the status is not a success, the
    body cannot be parsed, or the body is [null]. *)
Theorem client_null_without_answer env net url w :
  ((exists e, net w (postRequest (TALOS_API_URL env) (TALOS_API_KEY env) url) = Throw e) \/
   (exists res,
       net w (postRequest (TALOS_API_URL env) (TALOS_API_KEY env) url) = Ok res /\
       (res_ok res = false \/ (exists e, res_json res = Throw e) \/
        res_json res = Ok JNull)) ->
   fst (queryTalos env net url w) = Ok None) /\
  ((exists e, net w (postRequest (FORTIGUARD_API_URL env) (FORTIGUARD_API_KEY env) url) = Throw e) \/
   (exists res,
       net w (postRequest (FORTIGUARD_API_URL env) (FORTIGUARD_API_KEY env) url) = Ok res /\
       (res_ok res = false \/ (exists e, res_json res = Throw e) \/
        res_json res = Ok JNull)) ->
   fst (queryFortiGuard env net url w) = Ok None).
Proof.
  split.
  - intros [[e He] | (res & Hres & [Hok | Hbody])].
    + rewrite queryTalos_no_answer; [reflexivity | now rewrite He].
    + rewrite queryTalos_no_answer; [reflexivity | rewrite Hres; cbn; now rewrite Hok].
    + now apply (queryTalos_bad_body env net url w res).
  - intros [[e He] | (res & Hres & [Hok | Hbody])].
    + rewrite queryFortiGuard_no_answer; [reflexivity | now rewrite He].
    + rewrite queryFortiGuard_no_answer; [reflexivity | rewrite Hres; cbn; now rewrite Hok].
    + now apply (queryFortiGuard_bad_body env net url w res).
Qed.

(** Property X9.  In a fragment built from a body, each of the two
    mapped fields is either [null] or truthy - never [undefined], an
    empty string, zero, NaN or [false] - and [raw] is the body. *)
Theorem fragment_fields_null_or_truthy data :
  (forall frag, talosFragment data = Ok frag ->
     (talos_category frag = JNull \/ truthy (talos_category frag) = true) /\
     (talos_score frag = JNull \/ truthy (talos_score frag) = true) /\
     talos_raw frag = data) /\
  (forall frag, fortiFragment data = Ok frag ->
     (forti_category frag = JNull \/ truthy (forti_category frag) = true) /\
     (forti_threat frag = JNull \/ truthy (forti_threat frag) = true) /\
     forti_raw frag = data).
Proof.
  split; intros frag.
  - unfold talosFragment.
    destruct (firstTruthy data "category" "threat_category") as [c|e] eqn:Hc;
      [|discriminate]. cbn [bindR].
    destruct (firstTruthy data "score" "reputation_score") as [sc|e] eqn:Hs;
      [|discriminate]. cbn [bindR].
    intros [= <-]. cbn [talos_category talos_score talos_raw].
    split; [now apply (firstTruthy_null_or_truthy _ _ _ _ Hc)|].
    split; [now apply (firstTruthy_null_or_truthy _ _ _ _ Hs)|reflexivity].
  - unfold fortiFragment.
    destruct (firstTruthy data "category" "webfilter_category") as [c|e] eqn:Hc;
      [|discriminate]. cbn [bindR].
    destruct (firstTruthy data "threat" "threat_level") as [th|e] eqn:Ht;
      [|discriminate]. cbn [bindR].
    intros [= <-]. cbn [forti_category forti_threat forti_raw].
    split; [now apply (firstTruthy_null_or_truthy _ _ _ _ Hc)|].
    split; [now apply (firstTruthy_null_or_truthy _ _ _ _ Ht)|reflexivity].
Qed.

Lemma request_shape_witness :
  exists rT rF,
    snd (queryTalos configuredEnv unreachable exampleUrl []) = [rT] /\
    snd (queryFortiGuard configuredEnv unreachable exampleUrl []) = [rF] /\
    req_endpoint rT = "https://talos.example/api" /\
    req_endpoint rF = "https://forti.example/api" /\
    req_headers rT = [("Content-Type", "application/json");
                      ("Authorization", "Bearer tk")] /\
    req_headers rF = [("Content-Type", "application/json");
                      ("Authorization", "Bearer fk")].
Proof.
  destruct (request_shape configuredEnv unreachable exampleUrl [])
    as (rT & rF & HT & HF & _ & _ & HeT & HeF & HkT & HkF & _ & _).
  exists rT, rF. split; [exact HT|]. split; [exact HF|].
  split; [apply HeT; [reflexivity | discriminate]|].
  split; [apply HeF; [reflexivity | discriminate]|].
  split; [apply (HkT "tk"); [reflexivity | discriminate]|].
  apply (HkF "fk"); [reflexivity | discriminate].
Defined.

Lemma client_null_without_answer_witness :
  fst (queryTalos emptyEnv (alwaysAnswers JNull) exampleUrl []) = Ok None /\
  fst (queryFortiGuard emptyEnv unreachable exampleUrl []) = Ok None.
Proof.
  split.
  - apply (client_null_without_answer emptyEnv (alwaysAnswers JNull) exampleUrl []).
    right. exists (mkHttpResponse true 200 (Ok JNull)).
    split; [reflexivity|]. right. right. reflexivity.
  - apply (client_null_without_answer emptyEnv unreachable exampleUrl []).
    left. exists FetchError. reflexivity.
Defined.

Lemma fragment_fields_null_or_truthy_witness :
  (talos_category (mkTalos (JStr "malware") minusOne zeroThenNegative) = JNull \/
   truthy (talos_category (mkTalos (JStr "malware") minusOne zeroThenNegative)) = true) /\
  (talos_score (mkTalos (JStr "malware") minusOne zeroThenNegative) = JNull \/
   truthy (talos_score (mkTalos (JStr "malware") minusOne zeroThenNegative)) = true) /\
  talos_raw (mkTalos (JStr "malware") minusOne zeroThenNegative) = zeroThenNegative.
Proof.
  apply (proj1 (fragment_fields_null_or_truthy zeroThenNegative)).
  reflexivity.
Defined.

End ClientProps.

(* ================================================================== *)
(** * Further properties of the route *)
(* ================================================================== *)

Module RouteProps.

Section Generic.
Context {rt : JsRuntime}.
Variable queryTalos : JsVal -> M (option TalosFragment).
Variable queryFortiGuard : JsVal -> M (option FortiFragment).

(** One turn of the loop appends either the error entry or an entry
    whose verdict is the classifier's on the fragments it shows. *)
Lemma scanUrl_consistent url w :
  exists r w',
    (forall results,
        scanUrl queryTalos queryFortiGuard url results w
        = (Ok (results ++ [r])%list, w')) /\
    (r = errorResult (sr_url r) \/
     classifyFromEngines (sr_url r) (sr_talos r) (sr_fortiguard r)
     = Ok (mkVerdict (sr_status r) (sr_label r) (sr_reason r))).
Proof.
  unfold scanUrl, tryCatch, bindM, bothClients, liftR, ret.
  destruct (queryTalos url w) as [t w1].
  destruct (queryFortiGuard url w1) as [f w2].
  destruct t as [talos|e1], f as [fortiguard|e2]; cbn [fst snd].
  - destruct (classifyFromEngines url talos fortiguard) as [verdict|e] eqn:Hv.
    + exists (verdictResult url verdict talos fortiguard), w2.
      split; [reflexivity|]. right.
      cbn [verdictResult sr_url sr_talos sr_fortiguard sr_status sr_label sr_reason].
      rewrite Hv. now destruct verdict.
    + exists (errorResult url), w2. split; [reflexivity | now left].
  - exists (errorResult url), w2. split; [reflexivity | now left].
  - exists (errorResult url), w2. split; [reflexivity | now left].
  - exists (errorResult url), w2. split; [reflexivity | now left].
Qed.

Lemma forEachUrl_consistent urls :
  forall w, exists rs w',
    (forall results,
        forEachUrl queryTalos queryFortiGuard urls results w
        = (Ok (results ++ rs)%list, w')) /\
    Forall (fun r =>
              r = errorResult (sr_url r) \/
              classifyFromEngines (sr_url r) (sr_talos r) (sr_fortiguard r)
              = Ok (mkVerdict (sr_status r) (sr_label r) (sr_reason r))) rs.
Proof.
  induction urls as [|url rest IH]; intros w.
  - exists [], w. split; [|constructor].
    intros results. cbn. now rewrite app_nil_r.
  - destruct (scanUrl_consistent url w) as (r & w1 & Hr & Hkind).
    destruct (IH w1) as (rs & w' & Hrs & Hall).
    exists (r :: rs), w'. split; [|now constructor].
    intros results. cbn [forEachUrl]. unfold bindM.
    rewrite Hr, Hrs, <- app_assoc. reflexivity.
Qed.

(** Property X10.  Every entry of a reply is consistent in itself,
    whatever the clients do: it is the error entry for its URL, or its
    status, label and reason are the classifier's verdict on that URL
    and on the two fragments the entry carries. *)
Theorem entries_are_consistent body w reply w' :
  apiScan queryTalos queryFortiGuard body w = (Ok reply, w') ->
  Forall (fun r =>
            r = errorResult (sr_url r) \/
            classifyFromEngines (sr_url r) (sr_talos r) (sr_fortiguard r)
            = Ok (mkVerdict (sr_status r) (sr_label r) (sr_reason r)))
         (reply_results reply).
Proof.
  unfold apiScan, bindM, liftR, ret.
  destruct (getProp body "urls") as [bodyUrls|e]; [|discriminate].
  destruct (length _ =? 0)%nat.
  - intros [= <- _]. constructor.
  - destruct (forEachUrl_consistent
                (match bodyUrls with JArr items => items | _ => [] end) w)
      as (rs & w2 & Hrs & Hall).
    rewrite (Hrs []). cbn [app]. intros [= <- _]. exact Hall.
Qed.

(** Claim C7, where the code departs from it.  A request without a
    parsed body - [req.body] is [undefined] or [null] - is input that
    is not a list at all, yet the handler does not answer 400 with an
    empty result list: reading [req.body.urls] throws before the check
    on the list, for any clients.  No request is made. *)
Theorem scan_throws_without_body w :
  apiScan queryTalos queryFortiGuard JUndefined w = (Throw TypeError, w) /\
  apiScan queryTalos queryFortiGuard JNull w = (Throw TypeError, w) /\
  (forall reply w',
      apiScan queryTalos queryFortiGuard JUndefined w <> (Ok reply, w')).
Proof.
  split; [reflexivity|]. split; [reflexivity|].
  intros reply w' H. discriminate H.
Qed.

End Generic.

Section Deployed.
Context {rt : JsRuntime}.
Variable env : Env.
Variable net : Network.

(** The requests of the loop over the deployed clients, for any runtime. *)
Lemma loop_requests urls :
  forall results w,
    snd (forEachUrl (Clients.queryTalos env net) (Clients.queryFortiGuard env net)
           urls results w)
    = (w ++ flat_map (requestsFor env) urls)%list.
Proof.
  induction urls as [|url rest IH]; intros results w.
  - cbn. now rewrite app_nil_r.
  - destruct (RouteSpec.scanUrl_entry (Clients.queryTalos env net)
                (Clients.queryFortiGuard env net) url w) as (r & Hr & _ & _).
    cbn [forEachUrl flat_map]. unfold bindM. rewrite Hr, IH.
    rewrite ClientSpec.queryFortiGuard_always_fetches,
            ClientSpec.queryTalos_always_fetches.
    unfold requestsFor. now rewrite <- !app_assoc.
Qed.

(** Property X11.  The deployed server hands two requests per URL to
    [fetch], Talos before FortiGuard, in the order of the batch and
    whatever the network answers; with no array of URLs it hands none. *)
Theorem server_requests body bodyUrls w :
  getProp body "urls" = Ok bodyUrls ->
  snd (server env net body w) =
  (w ++ flat_map (requestsFor env)
         (match bodyUrls with JArr items => items | _ => [] end))%list.
Proof.
  intros Hbody. unfold server, apiScan, bindM, liftR, ret. rewrite Hbody.
  set (urls := match bodyUrls with JArr items => items | _ => [] end).
  destruct urls as [|u us] eqn:Hurls.
  - cbn. now rewrite app_nil_r.
  - cbn [length Nat.eqb].
    pose proof (loop_requests (u :: us) [] w) as Hreq.
    destruct (forEachUrl _ _ (u :: us) [] w) as [[rs|e] w2]; exact Hreq.
Qed.

(** Property X12.  A URL of the batch that is not a string - a number,
    [null], an object - gets the error entry from the deployed server,
    after both requests for it were made: the classifier throws on it
    and the loop catches that. *)
Theorem non_string_url_error_entry url results w :
  (forall u, url <> JStr u) ->
  scanUrl (Clients.queryTalos env net) (Clients.queryFortiGuard env net) url results w
  = (Ok (results ++ [errorResult url])%list, (w ++ requestsFor env url)%list).
Proof.
  intros Hurl.
  destruct (ClientSpec.queryTalos_never_throws env net url w) as [talos Ht].
  pose proof (ClientSpec.queryTalos_always_fetches env net url w) as Hw1.
  destruct (Clients.queryTalos env net url w) as [t w1] eqn:HqT.
  cbn [fst snd] in Ht, Hw1. subst t w1.
  destruct (ClientSpec.queryFortiGuard_never_throws env net url
              (w ++ [postRequest (TALOS_API_URL env) (TALOS_API_KEY env) url])%list)
    as [forti Hf].
  pose proof (ClientSpec.queryFortiGuard_always_fetches env net url
              (w ++ [postRequest (TALOS_API_URL env) (TALOS_API_KEY env) url])%list)
    as Hw2.
  destruct (Clients.queryFortiGuard env net url _) as [f w2] eqn:HqF.
  cbn [fst snd] in Hf, Hw2. subst f w2.
  rewrite (RouteSpec.non_string_url_entry _ _ url w talos forti _ _ results Hurl HqT HqF).
  unfold requestsFor. now rewrite <- app_assoc.
Qed.

(** On a network that never gives a usable answer, one turn of the loop
    for a URL string appends the unknown verdict with no fragments. *)
Lemma scanUrl_without_answers (u : string) results w :
  (forall w' r, noAnswer (net w' r) = true) ->
  scanUrl (Clients.queryTalos env net) (Clients.queryFortiGuard env net)
          (JStr u) results w
  = (Ok (results ++ [verdictResult (JStr u) unknownVerdict None None])%list,
     (w ++ requestsFor env (JStr u))%list).
Proof.
  intros Hdead. unfold scanUrl, tryCatch, bindM, bothClients, liftR, ret.
  rewrite (ClientProps.queryTalos_no_answer env net (JStr u) w (Hdead _ _)).
  rewrite (ClientProps.queryFortiGuard_no_answer env net (JStr u) _ (Hdead _ _)).
  cbn [fst snd]. unfold requestsFor. rewrite <- app_assoc. reflexivity.
Qed.

Lemma forEachUrl_without_answers us :
  (forall w' r, noAnswer (net w' r) = true) ->
  forall results w,
    forEachUrl (Clients.queryTalos env net) (Clients.queryFortiGuard env net)
               (map JStr us) results w
    = (Ok (results ++ map (fun u => verdictResult (JStr u) unknownVerdict None None) us)%list,
       (w ++ flat_map (requestsFor env) (map JStr us))%list).
Proof.
  intros Hdead. induction us as [|u us IH]; intros results w.
  - cbn. now rewrite !app_nil_r.
  - cbn [map forEachUrl flat_map]. unfold bindM.
    rewrite (scanUrl_without_answers u results w Hdead), IH.
    now rewrite <- !app_assoc.
Qed.

(** Property X13.  When neither service gives a usable answer - every
    request is rejected or answered with a failure status - the
    deployed server still replies 200, and every URL string of the batch
    gets the classifier's unknown verdict with both fragments null: the
    "Error querying" entry is not what a service outage produces. *)
Theorem outage_gives_unknown us w :
  (forall w' r, noAnswer (net w' r) = true) ->
  us <> [] ->
  server env net (bodyOf (map JStr us)) w =
  (Ok (mkReply 200 None
         (map (fun u =>
                 mkScanResult (JStr u) "unknown" "Unsure"
                   "No strong policy signals from Talos/FortiGuard categories."
                   None None) us)),
   (w ++ flat_map (requestsFor env) (map JStr us))%list).
Proof.
  intros Hdead Hne. unfold server, apiScan, bindM, liftR, ret.
  change (getProp (bodyOf (map JStr us)) "urls") with (Ok (JArr (map JStr us))).
  cbv beta iota zeta.
  assert (Hlen : (length (map JStr us) =? 0)%nat = false)
    by (destruct us; [contradiction | reflexivity]).
  rewrite Hlen, (forEachUrl_without_answers us Hdead [] w).
  reflexivity.
Qed.

End Deployed.

#[local] Existing Instance asciiRuntime.

Lemma entries_are_consistent_witness :
  Forall (fun r =>
            r = errorResult (sr_url r) \/
            classifyFromEngines (sr_url r) (sr_talos r) (sr_fortiguard r)
            = Ok (mkVerdict (sr_status r) (sr_label r) (sr_reason r)))
    [ mkScanResult (JStr "a") "blocked" "Blocked" (reason blockedVerdict)
        (Some (mkTalos (JStr "Malware") JNull JNull)) None;
      mkScanResult (JStr "b") "unknown" "Unsure"
        "Error querying Talos/FortiGuard." None None ].
Proof.
  apply (entries_are_consistent talosFailingOnB silentForti
           (bodyOf [JStr "a"; JStr "b"]) []
           (mkReply 200 None
              [ mkScanResult (JStr "a") "blocked" "Blocked" (reason blockedVerdict)
                  (Some (mkTalos (JStr "Malware") JNull JNull)) None;
                mkScanResult (JStr "b") "unknown" "Unsure"
                  "Error querying Talos/FortiGuard." None None ])
           []).
  reflexivity.
Defined.

Lemma server_requests_witness :
  snd (server emptyEnv unreachable (bodyOf [JStr "a"; JStr "b"]) []) =
  [ postRequest "https://<your-talos-endpoint>" "" (JStr "a");
    postRequest "https://<your-fortiguard-endpoint>" "" (JStr "a");
    postRequest "https://<your-talos-endpoint>" "" (JStr "b");
    postRequest "https://<your-fortiguard-endpoint>" "" (JStr "b") ].
Proof.
  apply (server_requests emptyEnv unreachable (bodyOf [JStr "a"; JStr "b"])
           (JArr [JStr "a"; JStr "b"]) []).
  reflexivity.
Defined.

Lemma non_string_url_error_entry_witness :
  scanUrl (Clients.queryTalos emptyEnv (alwaysAnswers zeroThenNegative))
          (Clients.queryFortiGuard emptyEnv (alwaysAnswers zeroThenNegative))
          zero [] []
  = (Ok [errorResult zero], requestsFor emptyEnv zero).
Proof.
  apply (non_string_url_error_entry emptyEnv (alwaysAnswers zeroThenNegative) zero [] []).
  intros u. discriminate.
Defined.

Lemma outage_gives_unknown_witness :
  server emptyEnv unreachable (bodyOf (map JStr ["a"; "a"])) [] =
  (Ok (mkReply 200 None
         (map (fun u =>
                 mkScanResult (JStr u) "unknown" "Unsure"
                   "No strong policy signals from Talos/FortiGuard categories."
                   None None) ["a"; "a"])),
   flat_map (requestsFor emptyEnv) (map JStr ["a"; "a"])).
Proof.
  apply (outage_gives_unknown emptyEnv unreachable ["a"; "a"] []).
  - intros w' r. reflexivity.
  - discriminate.
Defined.

End RouteProps.
